(** * The terminal view of the transpiler debugger

    A shallow embedding of [CLIView] (src/qiskit_trebugger/views/cli/cli_view.py):
    the view parameters, the key dispatch, the status bar with its index
    entry, the overview statistics and the drive loop of [display].

    Python integers are unbounded and are modelled by [Z]; [//] and [%] are
    floor division and floor remainder, which is what [Z.div] and [Z.modulo]
    compute for a positive divisor.  A Python exception is an explicit
    [Raise] result.  The curses windows are write-only for the program: a
    window is modelled by what was written to it, and the calls into curses
    are taken to succeed.  A run in which curses itself raises (a write
    outside its window on a narrow terminal) is outside the model: what is
    proved of a result holds of the runs in which curses accepts every
    call, and nothing is stated of which exception a whole session raises. *)

From Stdlib Require Import ZArith List Bool Ascii String Lia.
From Stdlib Require Import Numbers.DecimalString Numbers.DecimalPos.
Import ListNotations.

Local Open Scope Z_scope.

(** ** Exceptions *)

Inductive exn : Type :=
| IndexError
| KeyError
| ValueError
| ZeroDivisionError.

Inductive result (A : Type) : Type :=
| Ok (a : A)
| Raise (e : exn).

Arguments Ok {A} a.
Arguments Raise {A} e.

Definition bind {A B : Type} (r : result A) (k : A -> result B) : result B :=
  match r with
  | Ok a => k a
  | Raise e => Raise e
  end.

Notation "x <- r ;; k" := (bind r (fun x => k))
  (at level 61, r at next level, right associativity).

(** ** Python strings and sequences *)

(** A string drawn by the program is a list of code points ([len] counts
    code points, and the help line holds two arrows outside ASCII). *)
Definition pystr : Type := list N.

Definition str (s : string) : pystr :=
  map N_of_ascii (list_ascii_of_string s).

(** [s[:n]]: a negative bound counts from the end. *)
Definition py_slice_to {A : Type} (s : list A) (n : Z) : list A :=
  if 0 <=? n then firstn (Z.to_nat n) s
  else firstn (Z.to_nat (Z.of_nat (List.length s) + n)) s.

(** [s[i]]: a negative index counts from the end, out of range raises. *)
Definition py_index {A : Type} (s : list A) (i : Z) : result A :=
  let j := if i <? 0 then Z.of_nat (List.length s) + i else i in
  if j <? 0 then Raise IndexError
  else match nth_error s (Z.to_nat j) with
       | Some a => Ok a
       | None => Raise IndexError
       end.

(** [" " * k]: empty when [k <= 0]. *)
Definition py_spaces (k : Z) : pystr := repeat 32%N (Z.to_nat k).

Definition py_len {A : Type} (s : list A) : Z := Z.of_nat (List.length s).

(** [str(n)] for an integer. *)
Definition py_str_of_int (n : Z) : pystr :=
  str (NilZero.string_of_int (Z.to_int n)).

(** ** The model read by the view *)

(** Modelled from the spec: model/pass_type.py is not among the sources; the
    category of a step is one of TRANSFORMATION and ANALYSIS. *)
Inductive PassType : Type :=
| TRANSFORMATION
| ANALYSIS.

Definition PassType_eqb (a b : PassType) : bool :=
  match a, b with
  | TRANSFORMATION, TRANSFORMATION => true
  | ANALYSIS, ANALYSIS => true
  | _, _ => false
  end.

(** Modelled from the spec: model/circuit_stats.py is not among the sources;
    the statistics snapshot carries depth, size, width and the operation
    counts bucketed by operand arity, under the attribute names the view
    reads. *)
Record CircuitStats : Type := {
  depth : Z;
  size : Z;
  width : Z;
  ops_1q : Z;
  ops_2q : Z;
  ops_3q : Z
}.

Record Step : Type := {
  pass_type : PassType;
  circuit_stats : CircuitStats
}.

(** ** View parameters *)

Record view_params : Type := {
  curr_row : Z;
  curr_col : Z;
  last_width : Z;
  last_height : Z;
  pass_id : Z;
  transpiler_start_row : Z;
  transpiler_start_col : option Z;
  status_type : string
}.

Definition set_curr_row (vp : view_params) (v : Z) : view_params :=
  {| curr_row := v; curr_col := curr_col vp; last_width := last_width vp;
     last_height := last_height vp; pass_id := pass_id vp;
     transpiler_start_row := transpiler_start_row vp;
     transpiler_start_col := transpiler_start_col vp;
     status_type := status_type vp |}.

Definition set_curr_col (vp : view_params) (v : Z) : view_params :=
  {| curr_row := curr_row vp; curr_col := v; last_width := last_width vp;
     last_height := last_height vp; pass_id := pass_id vp;
     transpiler_start_row := transpiler_start_row vp;
     transpiler_start_col := transpiler_start_col vp;
     status_type := status_type vp |}.

Definition set_last_width (vp : view_params) (v : Z) : view_params :=
  {| curr_row := curr_row vp; curr_col := curr_col vp; last_width := v;
     last_height := last_height vp; pass_id := pass_id vp;
     transpiler_start_row := transpiler_start_row vp;
     transpiler_start_col := transpiler_start_col vp;
     status_type := status_type vp |}.

Definition set_last_height (vp : view_params) (v : Z) : view_params :=
  {| curr_row := curr_row vp; curr_col := curr_col vp;
     last_width := last_width vp; last_height := v; pass_id := pass_id vp;
     transpiler_start_row := transpiler_start_row vp;
     transpiler_start_col := transpiler_start_col vp;
     status_type := status_type vp |}.

Definition set_pass_id (vp : view_params) (v : Z) : view_params :=
  {| curr_row := curr_row vp; curr_col := curr_col vp;
     last_width := last_width vp; last_height := last_height vp;
     pass_id := v; transpiler_start_row := transpiler_start_row vp;
     transpiler_start_col := transpiler_start_col vp;
     status_type := status_type vp |}.

Definition set_transpiler_start_col (vp : view_params) (v : option Z)
  : view_params :=
  {| curr_row := curr_row vp; curr_col := curr_col vp;
     last_width := last_width vp; last_height := last_height vp;
     pass_id := pass_id vp; transpiler_start_row := transpiler_start_row vp;
     transpiler_start_col := v; status_type := status_type vp |}.

Definition set_status_type (vp : view_params) (v : string) : view_params :=
  {| curr_row := curr_row vp; curr_col := curr_col vp;
     last_width := last_width vp; last_height := last_height vp;
     pass_id := pass_id vp; transpiler_start_row := transpiler_start_row vp;
     transpiler_start_col := transpiler_start_col vp; status_type := v |}.

Definition _reset_view_params : view_params :=
  {| curr_row := 0; curr_col := 0; last_width := 0; last_height := 0;
     pass_id := -1; transpiler_start_row := 6; transpiler_start_col := None;
     status_type := "normal" |}.

(** ** Centering *)

Definition _get_center (width string_len divisor : Z) : result Z :=
  if divisor =? 0 then Raise ZeroDivisionError
  else Ok (Z.max 0 (width / divisor - string_len / 2 - string_len mod 2)).

(** ** Key dispatch *)

(** Key codes: [curses.KEY_UP], [curses.KEY_LEFT] and [ord] of the letters. *)
Definition KEY_UP : Z := 259.
Definition KEY_LEFT : Z := 260.

Definition ord (c : ascii) : Z := Z.of_N (N_of_ascii c).

Definition key_in (key : Z) (keys : list Z) : bool :=
  existsb (Z.eqb key) keys.

Definition status_in (s : string) (l : list string) : bool :=
  existsb (String.eqb s) l.

Definition _handle_keystroke (steps : list Step) (key : Z) (vp : view_params)
  : view_params :=
  if key =? KEY_UP then
    let vp := set_curr_row vp (curr_row vp - 1) in
    set_curr_row vp (Z.max (curr_row vp) 0)
  else if key =? KEY_LEFT then
    let vp := set_curr_col vp (curr_col vp - 1) in
    set_curr_col vp (Z.max (curr_col vp) 0)
  else if key_in key [ord "i"; ord "I"] then
    set_status_type vp "index"
  else if key_in key [ord "n"; ord "N"] then
    if status_in (status_type vp) ["index"; "pass"]%string then
      let vp := set_pass_id vp (Z.min (pass_id vp + 1) (py_len steps - 1)) in
      set_status_type vp "pass"
    else vp
  else if key_in key [ord "p"; ord "P"] then
    if status_in (status_type vp) ["index"; "pass"]%string then
      let vp := set_pass_id vp (Z.max 0 (pass_id vp - 1)) in
      set_status_type vp "pass"
    else vp
  else if key_in key [ord "b"; ord "B"] then
    let vp := set_status_type vp "normal" in
    let vp := set_pass_id vp (-1) in
    let vp := set_curr_col vp 0 in
    set_curr_row vp 0
  else vp.

(** ** Text of the index entry *)

(** The text box yields [chr(curses.ascii.ascii(c))] for every cell, so the
    gathered text is a string of single bytes; it is modelled by [string],
    read as code points below 256. *)

(** [str.isspace] on those code points: tab to carriage return, the four
    separators 28 to 31, space, NEL and the no-break space. *)
Definition py_isspace (a : ascii) : bool :=
  let n := N_of_ascii a in
  ((9 <=? n) && (n <=? 13) || (28 <=? n) && (n <=? 31) || (n =? 32)
   || (n =? 133) || (n =? 160))%N.

(** What [int] skips around the number: the C whitespace, and NEL and the
    no-break space, which it first turns into spaces. *)
Definition int_isspace (a : ascii) : bool :=
  let n := N_of_ascii a in
  ((9 <=? n) && (n <=? 13) || (n =? 32) || (n =? 133) || (n =? 160))%N.

Fixpoint dropwhile {A : Type} (f : A -> bool) (l : list A) : list A :=
  match l with
  | [] => []
  | a :: l' => if f a then dropwhile f l' else l
  end.

Definition strip_with (f : ascii -> bool) (l : list ascii) : list ascii :=
  rev (dropwhile f (rev (dropwhile f l))).

(** [s.strip()] *)
Definition py_strip (s : string) : string :=
  string_of_list_ascii (strip_with py_isspace (list_ascii_of_string s)).

(** [s.split(sep)] for a separator of one character: the pieces between the
    separators, never an empty list. *)
Fixpoint split_chars (sep : ascii) (cur : list ascii) (l : list ascii)
  : list (list ascii) :=
  match l with
  | [] => [rev cur]
  | c :: l' =>
      if Ascii.eqb c sep then rev cur :: split_chars sep [] l'
      else split_chars sep (c :: cur) l'
  end.

Definition py_split (sep : ascii) (s : string) : list string :=
  map string_of_list_ascii (split_chars sep [] (list_ascii_of_string s)).

Definition digit_val (a : ascii) : option Z :=
  let n := N_of_ascii a in
  if ((48 <=? n) && (n <=? 57))%N then Some (Z.of_N (n - 48)) else None.

(** The digits after a first digit: a digit, or one underscore followed by
    a digit. *)
Fixpoint parse_digits (acc : Z) (l : list ascii) : option Z :=
  match l with
  | [] => Some acc
  | c :: l' =>
      match digit_val c with
      | Some d => parse_digits (10 * acc + d) l'
      | None =>
          if Ascii.eqb c "_" then
            match l' with
            | c2 :: l'' =>
                match digit_val c2 with
                | Some d => parse_digits (10 * acc + d) l''
                | None => None
                end
            | [] => None
            end
          else None
      end
  end.

Definition parse_unsigned (l : list ascii) : option Z :=
  match l with
  | c :: l' =>
      match digit_val c with
      | Some d => parse_digits d l'
      | None => None
      end
  | [] => None
  end.

(** [int(s)] in base ten: whitespace around, an optional sign, digits with
    single underscores between them; anything else is a [ValueError].  (The
    limit CPython 3.11 puts on the number of digits is not modelled.) *)
Definition py_int (s : string) : result Z :=
  let l := strip_with int_isspace (list_ascii_of_string s) in
  let r :=
    match l with
    | c :: l' =>
        if Ascii.eqb c "-" then option_map Z.opp (parse_unsigned l')
        else if Ascii.eqb c "+" then parse_unsigned l'
        else parse_unsigned l
    | [] => None
    end in
  match r with
  | Some n => Ok n
  | None => Raise ValueError
  end.

(** ** Windows *)

Inductive draw : Type :=
| Addstr (y x : Z) (s : pystr)
| Hline (y x : Z) (ch : N) (n : Z)
| Clear.

(** [curses.newwin(nlines, ncols, begin_y, begin_x)] and what was drawn on
    it, in order (attributes and colours left out). *)
Record window : Type := {
  nlines : Z;
  ncols : Z;
  begin_y : Z;
  begin_x : Z;
  draws : list draw
}.

Definition newwin (nl nc by_ bx : Z) : window :=
  {| nlines := nl; ncols := nc; begin_y := by_; begin_x := bx; draws := [] |}.

Definition draw_on (w : window) (d : draw) : window :=
  {| nlines := nlines w; ncols := ncols w; begin_y := begin_y w;
     begin_x := begin_x w; draws := draws w ++ [d] |}.

(** ** Status bar *)

Definition _status_strings : list (string * pystr) :=
  [ ("normal"%string,
      str " STATUS BAR  | " ++ [8593%N; 8595%N]
      ++ str " keys / mouse cursor: Scrolling | 'I': Index into a pass | 'Q': Exit");
    ("index"%string,
      str " STATUS BAR  | Enter the index of the pass you want to view : ");
    ("invalid"%string,
      str " STATUS BAR  | Invalid input entered. Press Enter to continue.");
    ("out_of_bounds"%string,
      str " STATUS BAR  | Number entered is out of bounds. Please Enter to continue.");
    ("pass"%string,
      str " STATUS BAR  | Arrow keys: Scrolling | 'N/P': Move to next/previous pass | 'I': Index into a pass | 'B': Back to all passes | 'Q': Exit")
  ].

Fixpoint dict_get {V : Type} (d : list (string * V)) (k : string) : result V :=
  match d with
  | [] => Raise KeyError
  | (k', v) :: d' => if String.eqb k k' then Ok v else dict_get d' k
  end.

(** The [try]/[except] of [_get_statusbar_win]: the message to show and the
    view parameters after the entered text [str_value] was read. *)
Definition index_entry (steps : list Step) (str_value : string)
  (vp : view_params) : result (pystr * view_params) :=
  let attempt :=
    num <- py_int str_value ;;
    let total_passes := py_len steps in
    if (num >=? total_passes) || (num <? 0) then
      status_str <- dict_get _status_strings "out_of_bounds" ;;
      Ok (status_str, vp)
    else
      status_str <- dict_get _status_strings "pass" ;;
      Ok (status_str, set_pass_id vp num) in
  match attempt with
  | Ok r => Ok r
  | Raise _ =>
      status_str <- dict_get _status_strings "invalid" ;;
      Ok (status_str, vp)
  end.

(** [gathered] is what [textbox.gather()] returns when the text box is
    opened (it is not read otherwise). *)
Definition _get_statusbar_win (steps : list Step) (rows cols : Z)
  (status_type : string) (gathered : string) (vp : view_params)
  : result (window * view_params) :=
  s <- dict_get _status_strings status_type ;;
  let status_str := py_slice_to s (cols - 1) in
  let statusbar_window := newwin 1 cols (rows - 1) 0 in
  let offset := 0 in
  let statusbar_window := draw_on statusbar_window (Addstr 0 offset status_str) in
  let offset := offset + py_len status_str in
  if String.eqb status_type "index" then
    part <- py_index (py_split ":" gathered) 1 ;;
    let str_value := py_strip part in
    r <- index_entry steps str_value vp ;;
    let '(status_str, vp) := r in
    let status_str := py_slice_to status_str (cols - 1) in
    let statusbar_window := draw_on statusbar_window Clear in
    let offset := 0 in
    let statusbar_window := draw_on statusbar_window (Addstr 0 0 status_str) in
    let offset := offset + py_len status_str in
    let statusbar_window :=
      draw_on statusbar_window (Addstr 0 offset (py_spaces (cols - offset - 1))) in
    Ok (statusbar_window, vp)
  else
    let statusbar_window :=
      draw_on statusbar_window (Addstr 0 offset (py_spaces (cols - offset - 1))) in
    Ok (statusbar_window, vp).

(** ** The transpilation sequence *)

(** What the view reads of the sequence: the steps, the header pairs as the
    f-string renders them, and the text of [round(total_runtime, 2)] (the
    runtime is a float, whose rounding and printing are not modelled). *)
Record TranspilationSequence : Type := {
  steps : list Step;
  general_info : list (pystr * pystr);
  total_runtime_round2 : pystr
}.

(** ** Overview statistics *)

Record init_final : Type := {
  init : Z;
  final : Z
}.

(** [circuit_stats.__dict__[prop]] *)
Definition stats_dict (cs : CircuitStats) : list (string * Z) :=
  [ ("depth"%string, depth cs); ("size"%string, size cs);
    ("width"%string, width cs); ("ops_1q"%string, ops_1q cs);
    ("ops_2q"%string, ops_2q cs); ("ops_3q"%string, ops_3q cs) ].

Fixpoint for_each {A B : Type} (f : A -> result B) (l : list A)
  : result (list B) :=
  match l with
  | [] => Ok []
  | a :: l' => b <- f a ;; bs <- for_each f l' ;; Ok (b :: bs)
  end.

Definition _get_overview_stats (sq : TranspilationSequence)
  : result (list (string * init_final)) :=
  init_step <- py_index (steps sq) 0 ;;
  final_step <- py_index (steps sq) (-1) ;;
  let overview_stats :=
    [ ("depth"%string, {| init := 0; final := 0 |});
      ("size"%string, {| init := 0; final := 0 |});
      ("width"%string, {| init := 0; final := 0 |}) ] in
  let init_step_dict := stats_dict (circuit_stats init_step) in
  let final_step_dict := stats_dict (circuit_stats final_step) in
  overview_stats <-
    for_each (fun entry : string * init_final =>
                let prop := fst entry in
                i <- dict_get init_step_dict prop ;;
                f <- dict_get final_step_dict prop ;;
                Ok (prop, {| init := i; final := f |}))
             overview_stats ;;
  let ops_init :=
    ops_1q (circuit_stats init_step) + ops_2q (circuit_stats init_step)
    + ops_3q (circuit_stats init_step) in
  let ops_final :=
    ops_1q (circuit_stats final_step) + ops_2q (circuit_stats final_step)
    + ops_3q (circuit_stats final_step) in
  Ok (overview_stats
      ++ [("ops"%string, {| init := ops_init; final := ops_final |})]).

(** The counting loop of [_build_overview_win]: the pair of
    [total_passes["T"]] and [total_passes["A"]]. *)
Definition count_passes (l : list Step) : Z * Z :=
  fold_left
    (fun (total_passes : Z * Z) (step : Step) =>
       if PassType_eqb (pass_type step) TRANSFORMATION
       then (fst total_passes + 1, snd total_passes)
       else (fst total_passes, snd total_passes + 1))
    l (0, 0).

(** [s.capitalize()] on ASCII letters. *)
Definition ascii_upper (a : ascii) : ascii :=
  let n := N_of_ascii a in
  if ((97 <=? n) && (n <=? 122))%N then ascii_of_N (n - 32) else a.

Definition ascii_lower (a : ascii) : ascii :=
  let n := N_of_ascii a in
  if ((65 <=? n) && (n <=? 90))%N then ascii_of_N (n + 32) else a.

Definition py_capitalize (s : string) : string :=
  match list_ascii_of_string s with
  | [] => EmptyString
  | c :: l => string_of_list_ascii (ascii_upper c :: map ascii_lower l)
  end.

Fixpoint addstr_rows (row x : Z) (cut : Z) (lines : list pystr) : list draw :=
  match lines with
  | [] => []
  | line :: lines' =>
      Addstr row x (py_slice_to line cut) :: addstr_rows (row + 1) x cut lines'
  end.

Record CLIView : Type := {
  _title : option window;
  _overview : option window;
  _status_bar : option window;
  _view_params : view_params;
  transpilation_sequence : TranspilationSequence
}.

Definition _title_string : pystr := str "Qiskit Transpiler Debugger".

Section View.

(** [tabulate.tabulate(rows, headers=["Property", "Initial", "Final"],
    tablefmt="simple_grid", stralign="center", numalign="center")
    .splitlines()], a function of the library. *)
Variable tabulate : list (pystr * Z * Z) -> list pystr.

Definition _build_title_win (sq : TranspilationSequence) (cols : Z)
  : result window :=
  let title_rows := 4 in
  let title_cols := cols in
  let begin_row := 1 in
  let title_window := newwin title_rows title_cols begin_row 0 in
  let title_str := py_slice_to _title_string (title_cols - 1) in
  start_x_title <- _get_center title_cols (py_len title_str) 2 ;;
  let title_window := draw_on title_window (Hline 0 0 45%N title_cols) in
  let title_window := draw_on title_window (Addstr 1 start_x_title title_str) in
  let title_window := draw_on title_window (Hline 2 0 45%N title_cols) in
  let subtitle :=
    fold_left (fun (subtitle : pystr) (kv : pystr * pystr) =>
                 subtitle ++ fst kv ++ str ": " ++ snd kv ++ str " | ")
              (general_info sq) (str "| ") in
  let subtitle := py_slice_to subtitle (title_cols - 1) in
  start_x_subtitle <- _get_center title_cols (py_len subtitle) 2 ;;
  let title_window := draw_on title_window (Addstr 3 start_x_subtitle subtitle) in
  Ok title_window.

Definition _build_overview_win (sq : TranspilationSequence) (cols : Z)
  (vp : view_params) : result (window * view_params) :=
  let overview_rows := 26 in
  let overview_cols := cols in
  let begin_row := 6 in
  let overview_win := newwin overview_rows overview_cols begin_row 0 in
  let total_passes := count_passes (steps sq) in
  let total_T := fst total_passes in
  let total_A := snd total_passes in
  let total_pass_str :=
    py_slice_to (str "Total Passes : " ++ py_str_of_int (total_A + total_T))
                (overview_cols - 1) in
  let pass_categories_str :=
    py_slice_to (str "Transformation : " ++ py_str_of_int total_T
                 ++ str " | Analysis : " ++ py_str_of_int total_A)
                (overview_cols - 1) in
  let start_x := 5 in
  let overview_win :=
    draw_on overview_win
      (Addstr 5 start_x (py_slice_to (str "Pass Overview") (overview_cols - 1))) in
  let overview_win := draw_on overview_win (Addstr 6 start_x total_pass_str) in
  let overview_win := draw_on overview_win (Addstr 7 start_x pass_categories_str) in
  let runtime_str :=
    py_slice_to (str "Runtime : " ++ total_runtime_round2 sq ++ str " ms")
                (overview_cols - 1) in
  let overview_win := draw_on overview_win (Addstr 9 start_x runtime_str) in
  overview_stats <- _get_overview_stats sq ;;
  let rows :=
    map (fun entry : string * init_final =>
           (str (py_capitalize (fst entry)), init (snd entry), final (snd entry)))
        overview_stats in
  let stats_table := tabulate rows in
  let overview_win :=
    fold_left draw_on (addstr_rows 12 start_x (overview_cols - 1) stats_table)
              overview_win in
  first_line <- py_index stats_table 0 ;;
  let max_line_length := py_len first_line in
  let stats_str := py_slice_to (str "Circuit Statistics") (overview_cols - 1) in
  stats_head_offset <- _get_center max_line_length (py_len stats_str) 2 ;;
  let overview_win :=
    draw_on overview_win (Addstr 11 (start_x + stats_head_offset) stats_str) in
  let overview_str :=
    py_slice_to (str "TRANSPILATION OVERVIEW") (overview_cols - 1) in
  c <- _get_center max_line_length (py_len overview_str) 2 ;;
  let start_x_overview := start_x + c in
  let overview_win :=
    draw_on overview_win (Hline 0 start_x 95%N (Z.min cols max_line_length)) in
  let overview_win :=
    draw_on overview_win (Addstr 2 start_x_overview overview_str) in
  let overview_win :=
    draw_on overview_win (Hline 3 start_x 95%N (Z.min cols max_line_length)) in
  let vp := set_transpiler_start_col vp (Some (start_x + max_line_length + 5)) in
  Ok (overview_win, vp).

Definition with_view_params (view : CLIView) (vp : view_params) : CLIView :=
  {| _title := _title view; _overview := _overview view;
     _status_bar := _status_bar view; _view_params := vp;
     transpilation_sequence := transpilation_sequence view |}.

(** The pass-title window built when [resized] holds is local to the
    method and writes no attribute of the view; it is left out. *)
Definition _refresh_base_windows (resized : bool) (height width : Z)
  (gathered : string) (view : CLIView) : result CLIView :=
  let sq := transpilation_sequence view in
  view <-
    (if resized then
       title <- _build_title_win sq width ;;
       r <- _build_overview_win sq width (_view_params view) ;;
       Ok {| _title := Some title; _overview := Some (fst r);
             _status_bar := _status_bar view; _view_params := snd r;
             transpilation_sequence := sq |}
     else Ok view) ;;
  r <- _get_statusbar_win (steps sq) height width
         (status_type (_view_params view)) gathered (_view_params view) ;;
  Ok {| _title := _title view; _overview := _overview view;
        _status_bar := Some (fst r); _view_params := snd r;
        transpilation_sequence := sq |}.

(** One turn of the loop of [display]: the terminal size it reads, the
    text gathered if the text box opens, and the key read at its end. *)
Record cycle : Type := {
  c_height : Z;
  c_width : Z;
  c_gathered : string;
  c_key : Z
}.

Definition display_body (key : Z) (c : cycle) (view : CLIView)
  : result CLIView :=
  let height := c_height c in
  let width := c_width c in
  (* [panel_initiated] only guards [stdscr.clear()]; the writes to
   [stdscr] (the clearing, the line of the width and height, the refresh)
   touch no part of the view and are left out *)
  let panel_resized :=
    negb (last_width (_view_params view) =? width)
    || negb (last_height (_view_params view) =? height) in
  let view :=
    with_view_params view
      (_handle_keystroke (steps (transpilation_sequence view)) key
                         (_view_params view)) in
  view <- _refresh_base_windows panel_resized height width (c_gathered c) view ;;
  let view :=
    with_view_params view (set_last_width (_view_params view) width) in
  let view :=
    with_view_params view (set_last_height (_view_params view) height) in
  Ok view.

(** The [while] loop: it runs until the key is [q] or [Q]; with no turn
    left the view is the one the loop waits in for the next key. *)
Fixpoint display_loop (key : Z) (turns : list cycle) (view : CLIView)
  : result CLIView :=
  if key_in key [ord "q"; ord "Q"] then Ok view
  else match turns with
       | [] => Ok view
       | c :: turns' =>
           view <- display_body key c view ;;
           display_loop (c_key c) turns' view
       end.

Definition display (sq : TranspilationSequence) (height width : Z)
  (turns : list cycle) : result CLIView :=
  let key := 0 in
  let view :=
    {| _title := None; _overview := None; _status_bar := None;
       _view_params := _reset_view_params; transpilation_sequence := sq |} in
  view <- _refresh_base_windows true height width EmptyString view ;;
  display_loop key turns view.

End View.

(** ** Reachable view parameters *)

(** The view parameters a session over [l] can hold: those of the reset,
    and those any of the writing operations makes of them (the key dispatch,
    the status bar, the column the overview records, the size the loop
    records), in any order. *)
Inductive reachable (l : list Step) : view_params -> Prop :=
| reach_reset : reachable l _reset_view_params
| reach_key (key : Z) (vp : view_params) :
    reachable l vp -> reachable l (_handle_keystroke l key vp)
| reach_statusbar (rows cols : Z) (gathered : string) (w : window)
    (vp vp' : view_params) :
    reachable l vp ->
    _get_statusbar_win l rows cols (status_type vp) gathered vp = Ok (w, vp') ->
    reachable l vp'
| reach_start_col (c : Z) (vp : view_params) :
    reachable l vp -> reachable l (set_transpiler_start_col vp (Some c))
| reach_width (v : Z) (vp : view_params) :
    reachable l vp -> reachable l (set_last_width vp v)
| reach_height (v : Z) (vp : view_params) :
    reachable l vp -> reachable l (set_last_height vp v).

(** The invariant the writes keep: a pass is selected only while indexing
    or viewing a pass. *)
Definition selection_inv (vp : view_params) : Prop :=
  pass_id vp <> -1 ->
  status_type vp = "index"%string \/ status_type vp = "pass"%string.

(** ** The argument panel of the widget view *)

(** views/widget/timeline_utils.py builds the panel out of ipywidgets; a
    widget is modelled by its constructor, its children and its layout. *)
#[warnings="-register-all"]
Inductive widget : Type :=
| HTML (value : pystr)
| VBox (children : list widget) (layout : list (string * string))
| HBox (children : list widget) (layout : list (string * string)).

Definition box_kwargs : list (string * string) :=
  [ ("width", "50%"); ("display", "flex"); ("align_items", "stretch");
    ("flex_flow", "column") ]%string.

Definition key_label (key : pystr) : widget :=
  HTML (str "<p class = 'params-key'><b> " ++ key ++ str "</b></p>").

Definition value_label (value : pystr) : widget :=
  HTML (str "<p class = 'params-value'>" ++ value ++ str "</p>").

(** [children[index].append(label)] on the dictionary [{0: [], 1: []}],
    kept as a pair. *)
Definition append_at (children : list widget * list widget) (index : Z)
  (label : widget) : list widget * list widget :=
  if index =? 0 then (fst children ++ [label], snd children)
  else (fst children, snd children ++ [label]).

(** The state of the loop of [get_args_panel]: the box id and the two
    dictionaries of children. *)
Record args_state : Type := {
  box_index : Z;
  key_children : list widget * list widget;
  value_children : list widget * list widget
}.

(** The loop over [enumerate(kwargs.items())], from position [i] on; [n] is
    [len(kwargs.items())].  A keyword argument is its name and, unless it
    is [None], the text [str] gives of its value. *)
Fixpoint args_loop (n i : Z) (items : list (pystr * option pystr))
  (st : args_state) : args_state :=
  match items with
  | [] => st
  | (key, val) :: items' =>
      match val with
      | None => args_loop n (i + 1) items' st
      | Some value =>
          let st' :=
            {| box_index := if i <? n / 2 then 0 else 1;
               key_children :=
                 append_at (key_children st) (box_index st) (key_label key);
               value_children :=
                 append_at (value_children st) (box_index st)
                           (value_label value) |} in
          args_loop n (i + 1) items' st'
      end
  end.

Definition get_args_panel (kwargs : list (pystr * option pystr)) : widget :=
  let st :=
    args_loop (py_len kwargs) 0 kwargs
      {| box_index := 0; key_children := ([], []);
         value_children := ([], []) |} in
  let key_box0 := VBox (fst (key_children st)) box_kwargs in
  let val_box0 := VBox (fst (value_children st)) box_kwargs in
  let key_box1 := VBox (snd (key_children st)) box_kwargs in
  let val_box1 := VBox (snd (value_children st)) box_kwargs in
  let args_boxes :=
    [ HBox [key_box0; val_box0] [("width", "50%")]%string;
      HBox [key_box1; val_box1] [("width", "50%")]%string ] in
  HBox args_boxes [("margin", "10px 0 0 15px")]%string.

(** The arguments that are not [None], in order. *)
Definition present_args (kwargs : list (pystr * option pystr))
  : list (pystr * pystr) :=
  flat_map (fun kv : pystr * option pystr =>
              match snd kv with
              | Some value => [(fst kv, value)]
              | None => []
              end)
           kwargs.

(** ** Numerals *)

(** What holds of the characters of a decimal numeral, digits and minus
    sign: none is whitespace and none is a colon. *)
Definition numeral_char (a : ascii) : Prop :=
  py_isspace a = false /\ int_isspace a = false /\ a <> ":"%char.

(** ** A sample session *)

Definition sample_stats (d s w a b c : Z) : CircuitStats :=
  {| depth := d; size := s; width := w; ops_1q := a; ops_2q := b; ops_3q := c |}.

(** Five steps, three transformations and two analyses. *)
Definition sample_steps : list Step :=
  [ {| pass_type := TRANSFORMATION; circuit_stats := sample_stats 9 14 3 8 5 1 |};
    {| pass_type := ANALYSIS; circuit_stats := sample_stats 9 14 3 8 5 1 |};
    {| pass_type := TRANSFORMATION; circuit_stats := sample_stats 12 20 5 11 9 0 |};
    {| pass_type := ANALYSIS; circuit_stats := sample_stats 12 20 5 11 9 0 |};
    {| pass_type := TRANSFORMATION; circuit_stats := sample_stats 7 16 5 10 6 0 |} ].

Definition sample_sequence : TranspilationSequence :=
  {| steps := sample_steps;
     general_info := [(str "Backend", str "fake_athens")];
     total_runtime_round2 := str "41.27" |}.

(** A stand-in for the table printer: a header line and a line per row. *)
Definition plain_table (rows : list (pystr * Z * Z)) : list pystr :=
  str "Property  Initial  Final"
  :: map (fun r : pystr * Z * Z =>
            fst (fst r) ++ str "  " ++ py_str_of_int (snd (fst r))
            ++ str "  " ++ py_str_of_int (snd r))
         rows.

(** View parameters while the fourth pass is viewed. *)
Definition detail_params : view_params :=
  set_curr_row (set_pass_id (set_status_type _reset_view_params "pass") 3) 7.

(** View parameters right after the key [i]. *)
Definition index_params : view_params :=
  set_status_type _reset_view_params "index".

(** The line the text box holds once [typed] was entered after the prompt. *)
Definition prompt_line (typed : string) : string :=
  (" STATUS BAR  | Enter the index of the pass you want to view : " ++ typed)%string.


(** The status bar window of the entry of 3 over the sample steps, on a
    terminal of 24 rows and 80 columns. *)
Definition sample_statusbar : window :=
  match _get_statusbar_win sample_steps 24 80 "index" (prompt_line "3")
          index_params with
  | Ok r => fst r
  | Raise _ => newwin 1 80 23 0
  end.

(** A view to fall back on where a session raised. *)
Definition blank_view (sq : TranspilationSequence) : CLIView :=
  {| _title := None; _overview := None; _status_bar := None;
     _view_params := _reset_view_params; transpilation_sequence := sq |}.

(** A session of two turns: the key [i] is read at the end of the first,
    and 3 is entered in the text box of the second. *)
Definition sample_turns : list cycle :=
  [ {| c_height := 24; c_width := 80; c_gathered := EmptyString;
       c_key := ord "i" |};
    {| c_height := 24; c_width := 80; c_gathered := prompt_line "3";
       c_key := 10 |} ].

(** The view the loop waits in after the two turns of the sample session. *)
Definition sample_view : CLIView :=
  match display plain_table sample_sequence 24 80 sample_turns with
  | Ok view => view
  | Raise _ => blank_view sample_sequence
  end.

(** One more turn, on a terminal grown to 30 rows and 100 columns, that
    dispatches the key [n]. *)
Definition resize_turn : cycle :=
  {| c_height := 30; c_width := 100; c_gathered := EmptyString; c_key := 0 |}.

Definition resized_view : CLIView :=
  match display_body plain_table (ord "n") resize_turn sample_view with
  | Ok view => view
  | Raise _ => blank_view sample_sequence
  end.

(** Four keyword arguments, none of them [None]. *)
Definition full_kwargs : list (pystr * option pystr) :=
  [ (str "optimization_level", Some (str "1"));
    (str "layout_method", Some (str "trivial"));
    (str "routing_method", Some (str "sabre"));
    (str "seed_transpiler", Some (str "42")) ].

(** * Properties *)

(** ** Centering *)

(** C9: for a text of length [L >= 0] in a field of width [W >= 0] the left
    offset computed with the default divisor is
    [max(0, W//2 - L//2 - L%2)]; for [W = 80] and [L = 17] it is 31. *)
Theorem get_center_formula (W L : Z) (HL : 0 <= L) (HW : 0 <= W) :
  _get_center W L 2 = Ok (Z.max 0 (W / 2 - L / 2 - L mod 2))
  /\ _get_center 80 17 2 = Ok 31.
Proof.
  split.
  - unfold _get_center. replace (2 =? 0) with false by reflexivity. reflexivity.
  - reflexivity.
Qed.

Lemma get_center_formula_witness :
  (0 <= 17 /\ 0 <= 80)
  /\ _get_center 80 17 2 = Ok (Z.max 0 (80 / 2 - 17 / 2 - 17 mod 2))
  /\ _get_center 80 17 2 = Ok 31.
Proof.
  split; [lia | apply (get_center_formula 80 17); lia].
Defined.

(** ** Key dispatch *)

(** C4: the Back key, from any view parameters, leaves the status type
    [normal], the pass id -1 and the cursor at row 0 and column 0. *)
Theorem back_resets (l : list Step) (key : Z) (vp : view_params)
  (Hkey : key = ord "b" \/ key = ord "B") :
  status_type (_handle_keystroke l key vp) = "normal"%string
  /\ pass_id (_handle_keystroke l key vp) = -1
  /\ curr_row (_handle_keystroke l key vp) = 0
  /\ curr_col (_handle_keystroke l key vp) = 0.
Proof.
  destruct Hkey as [-> | ->]; repeat split; reflexivity.
Qed.

Lemma back_resets_witness :
  status_type (_handle_keystroke sample_steps 98 detail_params) = "normal"%string
  /\ pass_id (_handle_keystroke sample_steps 98 detail_params) = -1
  /\ curr_row (_handle_keystroke sample_steps 98 detail_params) = 0
  /\ curr_col (_handle_keystroke sample_steps 98 detail_params) = 0.
Proof.
  apply (back_resets sample_steps 98 detail_params). left. reflexivity.
Defined.

Lemma set_status_type_same (vp : view_params) :
  set_status_type vp (status_type vp) = vp.
Proof. destruct vp; reflexivity. Qed.

Lemma set_pass_id_same (vp : view_params) :
  set_pass_id vp (pass_id vp) = vp.
Proof. destruct vp; reflexivity. Qed.

(** The key [i] or [I] sets the status type to [index] and writes nothing
    else, so it leaves the view parameters as they are exactly when the
    status type is [index] already. *)
Lemma index_key_enters (l : list Step) (key : Z) (vp : view_params)
  (Hkey : key = ord "i" \/ key = ord "I") :
  _handle_keystroke l key vp = set_status_type vp "index"
  /\ (_handle_keystroke l key vp = vp <-> status_type vp = "index"%string).
Proof.
  assert (E : _handle_keystroke l key vp = set_status_type vp "index")
    by (destruct Hkey as [-> | ->]; reflexivity).
  split; [exact E |].
  rewrite E. split.
  - intro H. rewrite <- H. reflexivity.
  - intro H. rewrite <- H. apply set_status_type_same.
Qed.

(** C6: while a pass is viewed, with the pass id within [0, N-1], the key
    [n] or [N] moves the pass id by +1 and [p] or [P] by -1, clamped to
    [0, N-1], and writes nothing else; at [N-1] the first, and at 0 the
    second, leaves the view parameters as they are. *)
Theorem detail_next_previous (l : list Step) (vp : view_params)
  (Hst : status_type vp = "pass"%string)
  (Hlo : 0 <= pass_id vp) (Hhi : pass_id vp <= py_len l - 1) :
  (forall key, key = ord "n" \/ key = ord "N" ->
     _handle_keystroke l key vp
     = set_pass_id vp (Z.max 0 (Z.min (pass_id vp + 1) (py_len l - 1)))
     /\ (pass_id vp = py_len l - 1 -> _handle_keystroke l key vp = vp))
  /\ (forall key, key = ord "p" \/ key = ord "P" ->
        _handle_keystroke l key vp
        = set_pass_id vp (Z.max 0 (Z.min (pass_id vp - 1) (py_len l - 1)))
        /\ (pass_id vp = 0 -> _handle_keystroke l key vp = vp)).
Proof.
  split; intros key Hkey.
  - assert (E : _handle_keystroke l key vp
                = set_status_type
                    (set_pass_id vp (Z.min (pass_id vp + 1) (py_len l - 1)))
                    "pass").
    { destruct Hkey as [-> | ->]; unfold _handle_keystroke; simpl;
        rewrite Hst; reflexivity. }
    rewrite E. split.
    + replace (Z.max 0 (Z.min (pass_id vp + 1) (py_len l - 1)))
        with (Z.min (pass_id vp + 1) (py_len l - 1)) by lia.
      destruct vp; simpl in *; subst; reflexivity.
    + intro Hlast.
      replace (Z.min (pass_id vp + 1) (py_len l - 1)) with (pass_id vp) by lia.
      rewrite set_pass_id_same, <- Hst. apply set_status_type_same.
  - assert (E : _handle_keystroke l key vp
                = set_status_type (set_pass_id vp (Z.max 0 (pass_id vp - 1)))
                                  "pass").
    { destruct Hkey as [-> | ->]; unfold _handle_keystroke; simpl;
        rewrite Hst; reflexivity. }
    rewrite E. split.
    + replace (Z.max 0 (Z.min (pass_id vp - 1) (py_len l - 1)))
        with (Z.max 0 (pass_id vp - 1)) by lia.
      destruct vp; simpl in *; subst; reflexivity.
    + intro Hfirst.
      replace (Z.max 0 (pass_id vp - 1)) with (pass_id vp) by lia.
      rewrite set_pass_id_same, <- Hst. apply set_status_type_same.
Qed.

Lemma detail_next_previous_witness :
  (forall key, key = ord "n" \/ key = ord "N" ->
     _handle_keystroke sample_steps key detail_params
     = set_pass_id detail_params
         (Z.max 0 (Z.min (pass_id detail_params + 1) (py_len sample_steps - 1)))
     /\ (pass_id detail_params = py_len sample_steps - 1 ->
         _handle_keystroke sample_steps key detail_params = detail_params))
  /\ (forall key, key = ord "p" \/ key = ord "P" ->
        _handle_keystroke sample_steps key detail_params
        = set_pass_id detail_params
            (Z.max 0 (Z.min (pass_id detail_params - 1) (py_len sample_steps - 1)))
        /\ (pass_id detail_params = 0 ->
            _handle_keystroke sample_steps key detail_params = detail_params)).
Proof.
  apply (detail_next_previous sample_steps detail_params).
  - reflexivity.
  - simpl. lia.
  - vm_compute. discriminate.
Defined.

(** C10: over a non-empty sequence, with the status type [index] and no
    pass selected, the key [n] or [N] selects pass 0 and sets the status
    type to [pass], and so does the key [p] or [P]. *)
Theorem indexing_next_previous (l : list Step) (key : Z) (vp : view_params)
  (Hne : l <> []) (Hst : status_type vp = "index"%string)
  (Hid : pass_id vp = -1)
  (Hkey : (key = ord "n" \/ key = ord "N") \/ (key = ord "p" \/ key = ord "P")) :
  pass_id (_handle_keystroke l key vp) = 0
  /\ status_type (_handle_keystroke l key vp) = "pass"%string.
Proof.
  assert (Hlen : 1 <= py_len l).
  { unfold py_len. destruct l; [congruence | simpl List.length; lia]. }
  destruct Hkey as [[-> | ->] | [-> | ->]];
    unfold _handle_keystroke; simpl; rewrite Hst; simpl; rewrite Hid;
    split; try reflexivity; lia.
Qed.

Lemma indexing_next_previous_witness :
  pass_id (_handle_keystroke sample_steps 112
             (set_status_type _reset_view_params "index")) = 0
  /\ status_type (_handle_keystroke sample_steps 112
                    (set_status_type _reset_view_params "index")) = "pass"%string.
Proof.
  apply (indexing_next_previous sample_steps 112
           (set_status_type _reset_view_params "index")).
  - discriminate.
  - reflexivity.
  - reflexivity.
  - right. left. reflexivity.
Defined.

(** ** Overview statistics *)

Lemma py_index_first {A : Type} (l : list A) (a : A) :
  nth_error l 0 = Some a -> py_index l 0 = Ok a.
Proof.
  intro H. destruct l as [| b l']; [discriminate |].
  simpl in H. injection H as ->. reflexivity.
Qed.

Lemma py_index_minus_one {A : Type} (l : list A) (a : A) :
  nth_error l (List.length l - 1) = Some a -> py_index l (-1) = Ok a.
Proof.
  intro H. unfold py_index.
  destruct l as [| b l']; [discriminate |].
  simpl List.length in *. rewrite Nat.sub_1_r in H. simpl Nat.pred in H.
  replace (-1 <? 0) with true by reflexivity.
  replace (Z.of_nat (S (List.length l')) + -1) with (Z.of_nat (List.length l'))
    by lia.
  destruct (Z.of_nat (List.length l') <? 0) eqn:E;
    [apply Z.ltb_lt in E; lia |].
  rewrite Nat2Z.id, H. reflexivity.
Qed.

Lemma overview_stats_value (sq : TranspilationSequence) (s0 sN : Step) :
  py_index (steps sq) 0 = Ok s0 ->
  py_index (steps sq) (-1) = Ok sN ->
  _get_overview_stats sq
  = Ok [ ("depth"%string,
           {| init := depth (circuit_stats s0);
              final := depth (circuit_stats sN) |});
         ("size"%string,
           {| init := size (circuit_stats s0);
              final := size (circuit_stats sN) |});
         ("width"%string,
           {| init := width (circuit_stats s0);
              final := width (circuit_stats sN) |});
         ("ops"%string,
           {| init := ops_1q (circuit_stats s0) + ops_2q (circuit_stats s0)
                      + ops_3q (circuit_stats s0);
              final := ops_1q (circuit_stats sN) + ops_2q (circuit_stats sN)
                       + ops_3q (circuit_stats sN) |}) ].
Proof.
  intros H0 HN. unfold _get_overview_stats. rewrite H0, HN. reflexivity.
Qed.

(** C7: for a non-empty sequence the overview statistics hold, for depth,
    size and width, the value of the step at index 0 as [init] and the
    value of the step at index [N-1] as [final], and as [ops] the sum of
    the 1-qubit, 2-qubit and 3-qubit operation counts of each of these two
    steps. *)
Theorem overview_stats_first_last (sq : TranspilationSequence) (s0 sN : Step)
  (H0 : nth_error (steps sq) 0 = Some s0)
  (HN : nth_error (steps sq) (List.length (steps sq) - 1) = Some sN) :
  _get_overview_stats sq
  = Ok [ ("depth"%string,
           {| init := depth (circuit_stats s0);
              final := depth (circuit_stats sN) |});
         ("size"%string,
           {| init := size (circuit_stats s0);
              final := size (circuit_stats sN) |});
         ("width"%string,
           {| init := width (circuit_stats s0);
              final := width (circuit_stats sN) |});
         ("ops"%string,
           {| init := ops_1q (circuit_stats s0) + ops_2q (circuit_stats s0)
                      + ops_3q (circuit_stats s0);
              final := ops_1q (circuit_stats sN) + ops_2q (circuit_stats sN)
                       + ops_3q (circuit_stats sN) |}) ].
Proof.
  apply overview_stats_value.
  - apply py_index_first, H0.
  - apply py_index_minus_one, HN.
Qed.

Lemma overview_stats_first_last_witness :
  _get_overview_stats sample_sequence
  = Ok [ ("depth"%string, {| init := 9; final := 7 |});
         ("size"%string, {| init := 14; final := 16 |});
         ("width"%string, {| init := 3; final := 5 |});
         ("ops"%string, {| init := 8 + 5 + 1; final := 10 + 6 + 0 |}) ].
Proof.
  apply (overview_stats_first_last sample_sequence
           {| pass_type := TRANSFORMATION;
              circuit_stats := sample_stats 9 14 3 8 5 1 |}
           {| pass_type := TRANSFORMATION;
              circuit_stats := sample_stats 7 16 5 10 6 0 |});
    reflexivity.
Defined.






Lemma get_center_two (w n : Z) :
  _get_center w n 2 = Ok (Z.max 0 (w / 2 - n / 2 - n mod 2)).
Proof. reflexivity. Qed.





(** ** Index entry *)

Lemma index_entry_in_range (l : list Step) (s : string) (v : Z)
  (vp : view_params) (msg : pystr) :
  dict_get _status_strings "pass" = Ok msg ->
  py_int s = Ok v -> 0 <= v -> v <= py_len l - 1 ->
  index_entry l s vp = Ok (msg, set_pass_id vp v).
Proof.
  intros Hmsg Hint Hlo Hhi. unfold index_entry. rewrite Hint.
  cbv beta iota delta [bind].
  replace ((v >=? py_len l) || (v <? 0)) with false.
  - rewrite Hmsg. reflexivity.
  - symmetry. apply orb_false_iff. split.
    + rewrite Z.geb_leb. apply Z.leb_gt. lia.
    + apply Z.ltb_ge. lia.
Qed.

Lemma index_entry_out_of_bounds (l : list Step) (s : string) (v : Z)
  (vp : view_params) (msg : pystr) :
  dict_get _status_strings "out_of_bounds" = Ok msg ->
  py_int s = Ok v -> v < 0 \/ py_len l <= v ->
  index_entry l s vp = Ok (msg, vp).
Proof.
  intros Hmsg Hint Hout. unfold index_entry. rewrite Hint.
  cbv beta iota delta [bind].
  replace ((v >=? py_len l) || (v <? 0)) with true.
  - rewrite Hmsg. reflexivity.
  - symmetry. apply orb_true_iff. rewrite Z.geb_leb.
    destruct Hout as [H | H].
    + right. apply Z.ltb_lt. exact H.
    + left. apply Z.leb_le. exact H.
Qed.

Lemma index_entry_invalid (l : list Step) (s : string) (e : exn)
  (vp : view_params) (msg : pystr) :
  dict_get _status_strings "invalid" = Ok msg ->
  py_int s = Raise e ->
  index_entry l s vp = Ok (msg, vp).
Proof.
  intros Hmsg Hint. unfold index_entry. rewrite Hint.
  cbv beta iota delta [bind]. rewrite Hmsg. reflexivity.
Qed.

(** The entry never raises, and it writes at most the pass id. *)
Lemma index_entry_total (l : list Step) (s : string) (vp : view_params) :
  exists (msg : pystr) (vp' : view_params),
    index_entry l s vp = Ok (msg, vp')
    /\ (vp' = vp \/ exists v, vp' = set_pass_id vp v /\ 0 <= v <= py_len l - 1).
Proof.
  destruct (py_int s) as [v | e] eqn:Hint.
  - destruct (Z_lt_dec v 0) as [Hneg | Hpos].
    + eexists. exists vp. split; [| left; reflexivity].
      apply (index_entry_out_of_bounds l s v); [reflexivity | exact Hint | lia].
    + destruct (Z_le_dec (py_len l) v) as [Hbig | Hsmall].
      * eexists. exists vp. split; [| left; reflexivity].
        apply (index_entry_out_of_bounds l s v); [reflexivity | exact Hint | lia].
      * eexists. exists (set_pass_id vp v). split.
        -- apply (index_entry_in_range l s v); [reflexivity | exact Hint | lia | lia].
        -- right. exists v. split; [reflexivity | lia].
  - eexists. exists vp. split; [| left; reflexivity].
    apply (index_entry_invalid l s e); [reflexivity | exact Hint].
Qed.

(** The status bar of an index entry: the prompt is drawn, and after the
    entry the window is cleared and shows the message of the entry, cut to
    the width and padded with spaces. *)
Lemma statusbar_index_value (l : list Step) (rows cols : Z)
  (gathered part : string) (vp vp' : view_params) (prompt msg : pystr) :
  dict_get _status_strings "index" = Ok prompt ->
  py_index (py_split ":" gathered) 1 = Ok part ->
  index_entry l (py_strip part) vp = Ok (msg, vp') ->
  exists w : window,
    _get_statusbar_win l rows cols "index" gathered vp = Ok (w, vp')
    /\ draws w
       = [ Addstr 0 0 (py_slice_to prompt (cols - 1));
           Clear;
           Addstr 0 0 (py_slice_to msg (cols - 1));
           Addstr 0 (py_len (py_slice_to msg (cols - 1)))
             (py_spaces (cols - py_len (py_slice_to msg (cols - 1)) - 1)) ].
Proof.
  intros Hprompt Hpart Hentry. unfold _get_statusbar_win.
  rewrite Hprompt. cbv beta iota delta [bind].
  replace (String.eqb "index" "index") with true by reflexivity.
  rewrite Hpart, Hentry.
  eexists. split; reflexivity.
Qed.

(** The text after the colon is taken outside the [try]: a gathered line
    with no colon, as when the prompt was cut by a narrow terminal, makes
    the status bar raise. *)
Lemma statusbar_without_colon :
  _get_statusbar_win sample_steps 24 40 (status_type index_params)
    " STATUS BAR  | Enter the index of the pa3" index_params
  = Raise IndexError.
Proof. reflexivity. Qed.

(** C2, as the code has it: when the text between the first and the second
    colon of the gathered line, stripped, reads as an integer [v] with
    [0 <= v <= N-1], the status bar of the index entry returns without
    raising, shows the message of the status [pass], and sets the pass id
    to [v], which so lies in [0, N-1]; it writes nothing else: the status
    type stays [index]. *)
Theorem index_commit_in_range (l : list Step) (rows cols : Z)
  (gathered part : string) (v : Z) (vp : view_params)
  (Hst : status_type vp = "index"%string)
  (Hpart : py_index (py_split ":" gathered) 1 = Ok part)
  (Hint : py_int (py_strip part) = Ok v)
  (Hlo : 0 <= v) (Hhi : v <= py_len l - 1) :
  exists (w : window) (msg : pystr),
    _get_statusbar_win l rows cols (status_type vp) gathered vp
    = Ok (w, set_pass_id vp v)
    /\ dict_get _status_strings "pass" = Ok msg
    /\ draws w
       = [ Addstr 0 0
             (py_slice_to
                (str " STATUS BAR  | Enter the index of the pass you want to view : ")
                (cols - 1));
           Clear;
           Addstr 0 0 (py_slice_to msg (cols - 1));
           Addstr 0 (py_len (py_slice_to msg (cols - 1)))
             (py_spaces (cols - py_len (py_slice_to msg (cols - 1)) - 1)) ]
    /\ pass_id (set_pass_id vp v) = v
    /\ 0 <= pass_id (set_pass_id vp v) <= py_len l - 1
    /\ status_type (set_pass_id vp v) = "index"%string.
Proof.
  rewrite Hst.
  destruct (statusbar_index_value l rows cols gathered part vp
              (set_pass_id vp v) _ _ eq_refl Hpart
              (index_entry_in_range l (py_strip part) v vp _ eq_refl Hint Hlo Hhi))
    as (w & Hw & Hd).
  exists w. eexists. split; [exact Hw |].
  split; [reflexivity |]. split; [exact Hd |].
  simpl. repeat split; try lia. exact Hst.
Qed.

Lemma index_commit_in_range_witness :
  exists (w : window) (msg : pystr),
    _get_statusbar_win sample_steps 24 80 (status_type index_params)
      (prompt_line " 3 ") index_params
    = Ok (w, set_pass_id index_params 3)
    /\ dict_get _status_strings "pass" = Ok msg
    /\ draws w
       = [ Addstr 0 0
             (py_slice_to
                (str " STATUS BAR  | Enter the index of the pass you want to view : ")
                (80 - 1));
           Clear;
           Addstr 0 0 (py_slice_to msg (80 - 1));
           Addstr 0 (py_len (py_slice_to msg (80 - 1)))
             (py_spaces (80 - py_len (py_slice_to msg (80 - 1)) - 1)) ]
    /\ pass_id (set_pass_id index_params 3) = 3
    /\ 0 <= pass_id (set_pass_id index_params 3) <= py_len sample_steps - 1
    /\ status_type (set_pass_id index_params 3) = "index"%string.
Proof.
  apply (index_commit_in_range sample_steps 24 80 (prompt_line " 3 ")
           "  3 " 3 index_params).
  - reflexivity.
  - reflexivity.
  - reflexivity.
  - lia.
  - vm_compute. discriminate.
Defined.

(** C2 as stated fails: after the entry of 3 over five steps the pass id
    is 3 and the status type is still [index], not [pass]. *)
Lemma index_commit_status_type :
  match _get_statusbar_win sample_steps 24 80 (status_type index_params)
          (prompt_line "3") index_params with
  | Ok (_, vp') =>
      pass_id vp' = 3 /\ status_type vp' = "index"%string
      /\ status_type vp' <> "pass"%string
  | Raise _ => False
  end.
Proof.
  vm_compute. repeat split. discriminate.
Qed.

(** C3, as the code has it: for the text between the first and the second
    colon of the gathered line, stripped: if it does not read as an integer
    the status bar shows the message of the status [invalid], and if it
    reads as an integer [v] with [v < 0] or [v >= N] the status bar shows
    the message of the status [out_of_bounds]; in both cases the call
    returns without raising and the view parameters are as before, the
    pass id and the status type ([index]) alike.  The try block itself
    raises for no text. *)
Theorem index_commit_rejected (l : list Step) (rows cols : Z)
  (gathered part : string) (vp : view_params)
  (Hst : status_type vp = "index"%string)
  (Hpart : py_index (py_split ":" gathered) 1 = Ok part) :
  (forall e : exn, py_int (py_strip part) = Raise e ->
     exists (w : window) (msg : pystr),
       _get_statusbar_win l rows cols (status_type vp) gathered vp = Ok (w, vp)
       /\ dict_get _status_strings "invalid" = Ok msg
       /\ draws w
          = [ Addstr 0 0
                (py_slice_to
                   (str " STATUS BAR  | Enter the index of the pass you want to view : ")
                   (cols - 1));
              Clear;
              Addstr 0 0 (py_slice_to msg (cols - 1));
              Addstr 0 (py_len (py_slice_to msg (cols - 1)))
                (py_spaces (cols - py_len (py_slice_to msg (cols - 1)) - 1)) ])
  /\ (forall v : Z, py_int (py_strip part) = Ok v -> v < 0 \/ v >= py_len l ->
        exists (w : window) (msg : pystr),
          _get_statusbar_win l rows cols (status_type vp) gathered vp = Ok (w, vp)
          /\ dict_get _status_strings "out_of_bounds" = Ok msg
          /\ draws w
             = [ Addstr 0 0
                   (py_slice_to
                      (str " STATUS BAR  | Enter the index of the pass you want to view : ")
                      (cols - 1));
                 Clear;
                 Addstr 0 0 (py_slice_to msg (cols - 1));
                 Addstr 0 (py_len (py_slice_to msg (cols - 1)))
                   (py_spaces (cols - py_len (py_slice_to msg (cols - 1)) - 1)) ])
  /\ (forall text : string,
        exists (msg : pystr) (vp' : view_params),
          index_entry l text vp = Ok (msg, vp')).
Proof.
  rewrite Hst. split; [| split].
  - intros e Hint.
    destruct (statusbar_index_value l rows cols gathered part vp vp _ _
                eq_refl Hpart
                (index_entry_invalid l (py_strip part) e vp _ eq_refl Hint))
      as (w & Hw & Hd).
    exists w. eexists. split; [exact Hw |]. split; [reflexivity | exact Hd].
  - intros v Hint Hout.
    assert (Hout' : v < 0 \/ py_len l <= v) by lia.
    destruct (statusbar_index_value l rows cols gathered part vp vp _ _
                eq_refl Hpart
                (index_entry_out_of_bounds l (py_strip part) v vp _ eq_refl
                   Hint Hout'))
      as (w & Hw & Hd).
    exists w. eexists. split; [exact Hw |]. split; [reflexivity | exact Hd].
  - intro text.
    destruct (index_entry_total l text vp) as (msg & vp' & H & _).
    exists msg, vp'. exact H.
Qed.

Lemma index_commit_rejected_witness :
  (exists (w : window) (msg : pystr),
     _get_statusbar_win sample_steps 24 80 (status_type index_params)
       (prompt_line "") index_params = Ok (w, index_params)
     /\ dict_get _status_strings "invalid" = Ok msg
     /\ draws w
        = [ Addstr 0 0
              (py_slice_to
                 (str " STATUS BAR  | Enter the index of the pass you want to view : ")
                 (80 - 1));
            Clear;
            Addstr 0 0 (py_slice_to msg (80 - 1));
            Addstr 0 (py_len (py_slice_to msg (80 - 1)))
              (py_spaces (80 - py_len (py_slice_to msg (80 - 1)) - 1)) ])
  /\ (exists (w : window) (msg : pystr),
        _get_statusbar_win sample_steps 24 80 (status_type index_params)
          (prompt_line " -3 ") index_params = Ok (w, index_params)
        /\ dict_get _status_strings "out_of_bounds" = Ok msg
        /\ draws w
           = [ Addstr 0 0
                 (py_slice_to
                    (str " STATUS BAR  | Enter the index of the pass you want to view : ")
                    (80 - 1));
               Clear;
               Addstr 0 0 (py_slice_to msg (80 - 1));
               Addstr 0 (py_len (py_slice_to msg (80 - 1)))
                 (py_spaces (80 - py_len (py_slice_to msg (80 - 1)) - 1)) ])
  /\ (exists (w : window) (msg : pystr),
        _get_statusbar_win sample_steps 24 80 (status_type index_params)
          (prompt_line "5") index_params = Ok (w, index_params)
        /\ dict_get _status_strings "out_of_bounds" = Ok msg
        /\ draws w
           = [ Addstr 0 0
                 (py_slice_to
                    (str " STATUS BAR  | Enter the index of the pass you want to view : ")
                    (80 - 1));
               Clear;
               Addstr 0 0 (py_slice_to msg (80 - 1));
               Addstr 0 (py_len (py_slice_to msg (80 - 1)))
                 (py_spaces (80 - py_len (py_slice_to msg (80 - 1)) - 1)) ]).
Proof.
  split; [| split].
  - destruct (index_commit_rejected sample_steps 24 80 (prompt_line "") " "
                index_params eq_refl eq_refl) as [H _].
    exact (H ValueError eq_refl).
  - destruct (index_commit_rejected sample_steps 24 80 (prompt_line " -3 ")
                "  -3 " index_params eq_refl eq_refl) as [_ [H _]].
    apply (H (-3) eq_refl). left. reflexivity.
  - destruct (index_commit_rejected sample_steps 24 80 (prompt_line "5") " 5"
                index_params eq_refl eq_refl) as [_ [H _]].
    apply (H 5 eq_refl). right. vm_compute. discriminate.
Defined.

(** C3 as stated fails: after the entry of [abc] the status type is not
    [invalid], and after the entry of 7 over five steps it is not
    [out_of_bounds]; it is [index] as before. *)
Lemma index_commit_rejected_status_type :
  match _get_statusbar_win sample_steps 24 80 (status_type index_params)
          (prompt_line "abc") index_params,
        _get_statusbar_win sample_steps 24 80 (status_type index_params)
          (prompt_line "7") index_params with
  | Ok (_, vp1), Ok (_, vp2) =>
      (status_type vp1 = "index"%string /\ status_type vp1 <> "invalid"%string)
      /\ (status_type vp2 = "index"%string
          /\ status_type vp2 <> "out_of_bounds"%string)
  | _, _ => False
  end.
Proof.
  vm_compute. repeat split; discriminate.
Qed.

(** ** The invariant of the selection *)

Lemma handle_keystroke_inv (l : list Step) (key : Z) (vp : view_params) :
  selection_inv vp -> selection_inv (_handle_keystroke l key vp).
Proof.
  unfold selection_inv, _handle_keystroke. intro H.
  destruct (key =? KEY_UP); [exact H |].
  destruct (key =? KEY_LEFT); [exact H |].
  destruct (key_in key [ord "i"; ord "I"]); [intros _; left; reflexivity |].
  destruct (key_in key [ord "n"; ord "N"]).
  { destruct (status_in (status_type vp) ["index"%string; "pass"%string]);
      [intros _; right; reflexivity | exact H]. }
  destruct (key_in key [ord "p"; ord "P"]).
  { destruct (status_in (status_type vp) ["index"%string; "pass"%string]);
      [intros _; right; reflexivity | exact H]. }
  destruct (key_in key [ord "b"; ord "B"]); [| exact H].
  simpl. intro E. contradiction.
Qed.

Lemma statusbar_inv (l : list Step) (rows cols : Z) (gathered : string)
  (w : window) (vp vp' : view_params) :
  selection_inv vp ->
  _get_statusbar_win l rows cols (status_type vp) gathered vp = Ok (w, vp') ->
  selection_inv vp'.
Proof.
  unfold _get_statusbar_win. intros Hinv Hrun.
  destruct (dict_get _status_strings (status_type vp)) as [s | e];
    [| discriminate Hrun].
  cbv beta iota delta [bind] in Hrun.
  destruct (String.eqb (status_type vp) "index") eqn:Est.
  - apply String.eqb_eq in Est.
    destruct (py_index (py_split ":" gathered) 1) as [part | e];
      [| discriminate Hrun].
    destruct (index_entry_total l (py_strip part) vp)
      as (msg & vp1 & Hentry & Hvp1).
    rewrite Hentry in Hrun. injection Hrun as _ <-.
    destruct Hvp1 as [-> | (v & -> & _)]; [exact Hinv |].
    intros _. left. exact Est.
  - injection Hrun as _ <-. exact Hinv.
Qed.

Lemma reachable_inv (l : list Step) (vp : view_params) :
  reachable l vp -> selection_inv vp.
Proof.
  induction 1 as [| key vp _ IH | rows cols gathered w vp vp' _ IH Hrun
                  | c vp _ IH | v vp _ IH | v vp _ IH].
  - intro H. contradiction.
  - apply handle_keystroke_inv, IH.
  - exact (statusbar_inv l rows cols gathered w vp vp' IH Hrun).
  - exact IH.
  - exact IH.
  - exact IH.
Qed.

(** C1, as the code has it: in every reachable view parameters the pass id
    differs from -1 only when the status type is [index] or [pass], and the
    key dispatch and the status bar, with its index entry, keep it so. *)
Theorem selection_invariant (l : list Step) (vp : view_params)
  (Hreach : reachable l vp) :
  (pass_id vp <> -1 ->
   status_type vp = "index"%string \/ status_type vp = "pass"%string)
  /\ (forall key : Z, selection_inv (_handle_keystroke l key vp))
  /\ (forall (rows cols : Z) (gathered : string) (w : window)
        (vp' : view_params),
        _get_statusbar_win l rows cols (status_type vp) gathered vp = Ok (w, vp') ->
        selection_inv vp').
Proof.
  pose proof (reachable_inv l vp Hreach) as Hinv.
  split; [exact Hinv |]. split.
  - intro key. apply handle_keystroke_inv, Hinv.
  - intros rows cols gathered w vp' Hrun.
    exact (statusbar_inv l rows cols gathered w vp vp' Hinv Hrun).
Qed.

Lemma selection_invariant_witness :
  reachable sample_steps (set_pass_id index_params 3)
  /\ (pass_id (set_pass_id index_params 3) <> -1 ->
      status_type (set_pass_id index_params 3) = "index"%string
      \/ status_type (set_pass_id index_params 3) = "pass"%string)
  /\ (forall key : Z,
        selection_inv
          (_handle_keystroke sample_steps key (set_pass_id index_params 3)))
  /\ (forall (rows cols : Z) (gathered : string) (w : window)
        (vp' : view_params),
        _get_statusbar_win sample_steps rows cols
          (status_type (set_pass_id index_params 3)) gathered
          (set_pass_id index_params 3) = Ok (w, vp') ->
        selection_inv vp').
Proof.
  destruct (statusbar_index_value sample_steps 24 80 (prompt_line "3") " 3"
              index_params (set_pass_id index_params 3) _ _
              eq_refl eq_refl eq_refl) as (w & Hw & _).
  assert (R : reachable sample_steps (set_pass_id index_params 3)).
  { apply (reach_statusbar sample_steps 24 80 (prompt_line "3") w index_params).
    - exact (reach_key sample_steps 105 _ (reach_reset sample_steps)).
    - exact Hw. }
  split; [exact R |].
  apply (selection_invariant sample_steps (set_pass_id index_params 3) R).
Defined.

(** ** The loop of [display] stays within the reachable view parameters *)

Lemma build_overview_win_params (tabulate : list (pystr * Z * Z) -> list pystr)
  (sq : TranspilationSequence) (cols : Z) (vp vp' : view_params) (w : window) :
  _build_overview_win tabulate sq cols vp = Ok (w, vp') ->
  exists c : Z, vp' = set_transpiler_start_col vp (Some c).
Proof.
  unfold _build_overview_win. intro H.
  destruct (_get_overview_stats sq) as [st | e]; [| discriminate H].
  cbv beta iota delta [bind] in H.
  match type of H with
  | context [py_index ?t 0] =>
      destruct (py_index t 0) as [line | e]; [| discriminate H]
  end.
  rewrite !get_center_two in H.
  injection H as _ <-. eexists. reflexivity.
Qed.

Lemma refresh_base_windows_reachable
  (tabulate : list (pystr * Z * Z) -> list pystr) (resized : bool)
  (height width : Z) (gathered : string) (view view' : CLIView) :
  reachable (steps (transpilation_sequence view)) (_view_params view) ->
  _refresh_base_windows tabulate resized height width gathered view = Ok view' ->
  transpilation_sequence view' = transpilation_sequence view
  /\ reachable (steps (transpilation_sequence view)) (_view_params view').
Proof.
  unfold _refresh_base_windows. intros Hreach Hrun.
  destruct resized.
  - destruct (_build_title_win (transpilation_sequence view) width)
      as [title | e]; [| discriminate Hrun].
    cbv beta iota delta [bind] in Hrun.
    destruct (_build_overview_win tabulate (transpilation_sequence view) width
                (_view_params view)) as [[ow vp1] | e] eqn:Eo;
      [| discriminate Hrun].
    destruct (build_overview_win_params _ _ _ _ _ _ Eo) as [c ->].
    simpl in Hrun.
    match type of Hrun with
    | context [_get_statusbar_win ?l ?r ?c2 ?s ?g ?v] =>
        destruct (_get_statusbar_win l r c2 s g v) as [[sw vp2] | e] eqn:Es;
        [| discriminate Hrun]
    end.
    injection Hrun as <-. simpl. split; [reflexivity |].
    eapply reach_statusbar; [| exact Es].
    apply reach_start_col, Hreach.
  - cbv beta iota delta [bind] in Hrun.
    destruct (_get_statusbar_win (steps (transpilation_sequence view)) height
                width (status_type (_view_params view)) gathered
                (_view_params view)) as [[sw vp2] | e] eqn:Es;
      [| discriminate Hrun].
    injection Hrun as <-. simpl. split; [reflexivity |].
    eapply reach_statusbar; [exact Hreach | exact Es].
Qed.

Lemma display_body_reachable
  (tabulate : list (pystr * Z * Z) -> list pystr) (key : Z) (c : cycle)
  (view view' : CLIView) :
  reachable (steps (transpilation_sequence view)) (_view_params view) ->
  display_body tabulate key c view = Ok view' ->
  transpilation_sequence view' = transpilation_sequence view
  /\ reachable (steps (transpilation_sequence view)) (_view_params view').
Proof.
  unfold display_body. intros Hreach Hrun.
  match type of Hrun with
  | context [_refresh_base_windows ?t ?r ?h ?w ?g ?v] =>
      destruct (_refresh_base_windows t r h w g v) as [view1 | e] eqn:Er;
      [| discriminate Hrun]
  end.
  apply refresh_base_windows_reachable in Er;
    [| simpl; apply reach_key, Hreach].
  simpl in Er. destruct Er as [Esq Hr1].
  cbv beta iota delta [bind] in Hrun. injection Hrun as <-.
  simpl. split; [exact Esq |].
  apply reach_height, reach_width, Hr1.
Qed.

Lemma display_loop_reachable
  (tabulate : list (pystr * Z * Z) -> list pystr) (turns : list cycle) :
  forall (key : Z) (view view' : CLIView),
    reachable (steps (transpilation_sequence view)) (_view_params view) ->
    display_loop tabulate key turns view = Ok view' ->
    transpilation_sequence view' = transpilation_sequence view
    /\ reachable (steps (transpilation_sequence view)) (_view_params view').
Proof.
  induction turns as [| c turns IH]; intros key view view' Hreach Hrun;
    cbn [display_loop] in Hrun.
  - destruct (key_in key [ord "q"; ord "Q"]);
      injection Hrun as <-; (split; [reflexivity | exact Hreach]).
  - destruct (key_in key [ord "q"; ord "Q"]).
    + injection Hrun as <-. split; [reflexivity | exact Hreach].
    + destruct (display_body tabulate key c view) as [view1 | e] eqn:Eb;
        [| discriminate Hrun].
      cbv beta iota delta [bind] in Hrun.
      apply display_body_reachable in Eb; [| exact Hreach].
      destruct Eb as [Esq Hr1].
      apply IH in Hrun; [| rewrite Esq; exact Hr1].
      rewrite Esq in Hrun. exact Hrun.
Qed.

Lemma display_reachable (tabulate : list (pystr * Z * Z) -> list pystr)
  (sq : TranspilationSequence) (height width : Z) (turns : list cycle)
  (view : CLIView) :
  display tabulate sq height width turns = Ok view ->
  transpilation_sequence view = sq
  /\ reachable (steps sq) (_view_params view).
Proof.
  unfold display. intro Hrun.
  match type of Hrun with
  | context [_refresh_base_windows ?t ?r ?h ?w ?g ?v] =>
      destruct (_refresh_base_windows t r h w g v) as [view1 | e] eqn:Er;
      [| discriminate Hrun]
  end.
  apply refresh_base_windows_reachable in Er; [| simpl; apply reach_reset].
  simpl in Er. destruct Er as [Esq Hr1].
  cbv beta iota delta [bind] in Hrun.
  apply display_loop_reachable in Hrun; [| rewrite Esq; exact Hr1].
  rewrite Esq in Hrun. exact Hrun.
Qed.

(** C1 as stated fails: in the session where the key [i] is pressed and 3
    is entered over five steps, the loop waits for the next key with the
    pass id 3 and the status type [index], not [pass]. *)
Lemma selection_while_indexing :
  match display plain_table sample_sequence 24 80 sample_turns with
  | Ok view =>
      reachable sample_steps (_view_params view)
      /\ pass_id (_view_params view) = 3
      /\ pass_id (_view_params view) <> -1
      /\ status_type (_view_params view) = "index"%string
      /\ status_type (_view_params view) <> "pass"%string
  | Raise _ => False
  end.
Proof.
  remember (display plain_table sample_sequence 24 80 sample_turns) as r eqn:E.
  assert (Hp : match r with
               | Ok view =>
                   pass_id (_view_params view) = 3
                   /\ pass_id (_view_params view) <> -1
                   /\ status_type (_view_params view) = "index"%string
                   /\ status_type (_view_params view) <> "pass"%string
               | Raise _ => False
               end).
  { subst r. vm_compute. repeat split; discriminate. }
  destruct r as [view | e]; [| exact Hp].
  split; [| exact Hp].
  symmetry in E. apply display_reachable in E. exact (proj2 E).
Qed.

(** * Further properties of the view *)

(** ** Key dispatch *)

Lemma key_in_pair (key a b : Z) :
  key_in key [a; b] = (key =? a) || (key =? b).
Proof. unfold key_in. simpl. rewrite orb_false_r. reflexivity. Qed.

(** X1: a key bound to nothing (any key but Up, Left and the letters i, n,
    p, b in either case, so also Down, Right and q) leaves the view
    parameters as they are. *)
Theorem unbound_key_ignored (l : list Step) (key : Z) (vp : view_params)
  (Hkey : ~ In key [KEY_UP; KEY_LEFT; ord "i"; ord "I"; ord "n"; ord "N";
                    ord "p"; ord "P"; ord "b"; ord "B"]) :
  _handle_keystroke l key vp = vp.
Proof.
  assert (Hneq : forall c,
             In c [KEY_UP; KEY_LEFT; ord "i"; ord "I"; ord "n"; ord "N";
                   ord "p"; ord "P"; ord "b"; ord "B"] ->
             (key =? c) = false).
  { intros c Hc. apply Z.eqb_neq. intros ->. exact (Hkey Hc). }
  unfold _handle_keystroke. rewrite !key_in_pair.
  rewrite !Hneq by (simpl; tauto). reflexivity.
Qed.

Lemma unbound_key_ignored_witness :
  _handle_keystroke sample_steps 258 detail_params = detail_params.
Proof.
  apply (unbound_key_ignored sample_steps 258 detail_params).
  vm_compute. intuition discriminate.
Defined.

Lemma next_key_value (l : list Step) (key : Z) (vp : view_params) :
  key = ord "n" \/ key = ord "N" ->
  status_type vp = "index"%string \/ status_type vp = "pass"%string ->
  _handle_keystroke l key vp
  = set_status_type (set_pass_id vp (Z.min (pass_id vp + 1) (py_len l - 1)))
                    "pass".
Proof.
  intros [-> | ->] [Hst | Hst]; unfold _handle_keystroke; simpl;
    rewrite Hst; reflexivity.
Qed.

Lemma previous_key_value (l : list Step) (key : Z) (vp : view_params) :
  key = ord "p" \/ key = ord "P" ->
  status_type vp = "index"%string \/ status_type vp = "pass"%string ->
  _handle_keystroke l key vp
  = set_status_type (set_pass_id vp (Z.max 0 (pass_id vp - 1))) "pass".
Proof.
  intros [-> | ->] [Hst | Hst]; unfold _handle_keystroke; simpl;
    rewrite Hst; reflexivity.
Qed.

(** X2: outside the status types [index] and [pass] the keys n, N, p and P
    leave the view parameters as they are. *)
Theorem next_previous_guarded (l : list Step) (key : Z) (vp : view_params)
  (Hkey : In key [ord "n"; ord "N"; ord "p"; ord "P"])
  (Hindex : status_type vp <> "index"%string)
  (Hpass : status_type vp <> "pass"%string) :
  _handle_keystroke l key vp = vp.
Proof.
  assert (Hst : status_in (status_type vp) ["index"%string; "pass"%string]
                = false).
  { unfold status_in. simpl.
    destruct (String.eqb_spec (status_type vp) "index"); [contradiction |].
    destruct (String.eqb_spec (status_type vp) "pass"); [contradiction |].
    reflexivity. }
  simpl in Hkey.
  destruct Hkey as [<- | [<- | [<- | [<- | []]]]];
    unfold _handle_keystroke; rewrite Hst; reflexivity.
Qed.

Lemma next_previous_guarded_witness :
  _handle_keystroke sample_steps 110 _reset_view_params = _reset_view_params.
Proof.
  apply (next_previous_guarded sample_steps 110 _reset_view_params).
  - simpl. left. reflexivity.
  - discriminate.
  - discriminate.
Defined.

(** X3: while a pass is viewed, with the pass id within [0, N-1], Previous
    undoes Next unless the last pass is viewed, and Next undoes Previous
    unless the first pass is viewed. *)
Theorem next_previous_round_trip (l : list Step) (kn kp : Z)
  (vp : view_params)
  (Hkn : kn = ord "n" \/ kn = ord "N") (Hkp : kp = ord "p" \/ kp = ord "P")
  (Hst : status_type vp = "pass"%string)
  (Hlo : 0 <= pass_id vp) (Hhi : pass_id vp <= py_len l - 1) :
  (pass_id vp < py_len l - 1 ->
   _handle_keystroke l kp (_handle_keystroke l kn vp) = vp)
  /\ (0 < pass_id vp ->
      _handle_keystroke l kn (_handle_keystroke l kp vp) = vp).
Proof.
  split; intro Hin.
  - rewrite (next_key_value l kn vp Hkn (or_intror Hst)).
    rewrite (previous_key_value l kp _ Hkp) by (right; reflexivity).
    destruct vp; simpl in *; subst.
    unfold set_status_type, set_pass_id; simpl. f_equal. lia.
  - rewrite (previous_key_value l kp vp Hkp (or_intror Hst)).
    rewrite (next_key_value l kn _ Hkn) by (right; reflexivity).
    destruct vp; simpl in *; subst.
    unfold set_status_type, set_pass_id; simpl. f_equal. lia.
Qed.

Lemma next_previous_round_trip_witness :
  (pass_id detail_params < py_len sample_steps - 1 ->
   _handle_keystroke sample_steps 112
     (_handle_keystroke sample_steps 110 detail_params) = detail_params)
  /\ (0 < pass_id detail_params ->
      _handle_keystroke sample_steps 110
        (_handle_keystroke sample_steps 112 detail_params) = detail_params).
Proof.
  apply (next_previous_round_trip sample_steps 110 112 detail_params).
  - left. reflexivity.
  - left. reflexivity.
  - reflexivity.
  - simpl. lia.
  - vm_compute. discriminate.
Defined.

(** The key dispatch writes neither the recorded terminal size nor the
    place of the passes. *)
Lemma handle_keystroke_frame (l : list Step) (key : Z) (vp : view_params) :
  last_width (_handle_keystroke l key vp) = last_width vp
  /\ last_height (_handle_keystroke l key vp) = last_height vp
  /\ transpiler_start_row (_handle_keystroke l key vp) = transpiler_start_row vp
  /\ transpiler_start_col (_handle_keystroke l key vp) = transpiler_start_col vp.
Proof.
  unfold _handle_keystroke.
  destruct (key =? KEY_UP); [repeat split |].
  destruct (key =? KEY_LEFT); [repeat split |].
  destruct (key_in key [ord "i"; ord "I"]); [repeat split |].
  destruct (key_in key [ord "n"; ord "N"]).
  { destruct (status_in (status_type vp) ["index"%string; "pass"%string]);
      repeat split. }
  destruct (key_in key [ord "p"; ord "P"]).
  { destruct (status_in (status_type vp) ["index"%string; "pass"%string]);
      repeat split. }
  destruct (key_in key [ord "b"; ord "B"]); repeat split.
Qed.

(** X4: Back forgets the key before it: whatever key was dispatched first,
    Back leads to the view parameters it leads to directly. *)
Theorem back_absorbs (l : list Step) (key kb : Z) (vp : view_params)
  (Hkb : kb = ord "b" \/ kb = ord "B") :
  _handle_keystroke l kb (_handle_keystroke l key vp)
  = _handle_keystroke l kb vp.
Proof.
  assert (Hb : forall v,
             _handle_keystroke l kb v
             = {| curr_row := 0; curr_col := 0; last_width := last_width v;
                  last_height := last_height v; pass_id := -1;
                  transpiler_start_row := transpiler_start_row v;
                  transpiler_start_col := transpiler_start_col v;
                  status_type := "normal" |})
    by (intro v; destruct Hkb as [-> | ->]; reflexivity).
  rewrite !Hb.
  destruct (handle_keystroke_frame l key vp) as (-> & -> & -> & ->).
  reflexivity.
Qed.

Lemma back_absorbs_witness :
  _handle_keystroke sample_steps 66 (_handle_keystroke sample_steps 105 detail_params)
  = _handle_keystroke sample_steps 66 detail_params.
Proof.
  apply (back_absorbs sample_steps 105 66 detail_params). right. reflexivity.
Defined.

(** ** Centering and the title window *)

Lemma py_slice_to_len {A : Type} (s : list A) (n : Z) :
  0 <= n -> py_len (py_slice_to s n) = Z.min (py_len s) n.
Proof.
  intro Hn. unfold py_len, py_slice_to.
  destruct (0 <=? n) eqn:E; [| apply Z.leb_gt in E; lia].
  rewrite length_firstn. lia.
Qed.

Lemma py_spaces_len (k : Z) : py_len (py_spaces k) = Z.max k 0.
Proof.
  unfold py_len, py_spaces. rewrite repeat_length. lia.
Qed.

Lemma center_within (W L : Z) :
  0 <= L -> L <= W - 1 ->
  0 <= Z.max 0 (W / 2 - L / 2 - L mod 2)
  /\ Z.max 0 (W / 2 - L / 2 - L mod 2) + L <= W - 1.
Proof.
  intros HL HW. Z.div_mod_to_equations. lia.
Qed.

(** X5: a text of length [L] that fits a field of width [W] is placed
    inside the field: the offset is not negative, the text ends within the
    field, and the margin left of it is the margin right of it or up to
    two columns less. *)
Theorem center_fits (W L : Z) (HL : 0 <= L) (HLW : L <= W) :
  exists off : Z,
    _get_center W L 2 = Ok off
    /\ 0 <= off
    /\ off + L <= W
    /\ off <= W - (off + L) <= off + 2.
Proof.
  exists (Z.max 0 (W / 2 - L / 2 - L mod 2)).
  split; [reflexivity |].
  Z.div_mod_to_equations. lia.
Qed.

Lemma center_fits_witness :
  exists off : Z,
    _get_center 80 17 2 = Ok off
    /\ 0 <= off
    /\ off + 17 <= 80
    /\ off <= 80 - (off + 17) <= off + 2.
Proof.
  apply (center_fits 80 17); lia.
Defined.

(** X6: on a terminal of at least one column the title window is built
    with 4 rows and [cols] columns, and what is drawn on it is a rule, the
    title cut to [cols - 1] characters and centred, a rule, and the
    subtitle made of the header pairs, cut and centred alike; the title
    and the subtitle start at a column that is not negative and end before
    the last column of the window, whatever the header pairs are. *)
Theorem title_texts_fit (sq : TranspilationSequence) (cols : Z)
  (Hcols : 1 <= cols) :
  exists (w : window) (x_title x_subtitle : Z) (title subtitle : pystr),
    _build_title_win sq cols = Ok w
    /\ nlines w = 4 /\ ncols w = cols
    /\ title = py_slice_to _title_string (cols - 1)
    /\ subtitle
       = py_slice_to
           (fold_left (fun (subtitle : pystr) (kv : pystr * pystr) =>
                         subtitle ++ fst kv ++ str ": " ++ snd kv ++ str " | ")
                      (general_info sq) (str "| "))
           (cols - 1)
    /\ _get_center cols (py_len title) 2 = Ok x_title
    /\ _get_center cols (py_len subtitle) 2 = Ok x_subtitle
    /\ draws w
       = [ Hline 0 0 45%N cols; Addstr 1 x_title title;
           Hline 2 0 45%N cols; Addstr 3 x_subtitle subtitle ]
    /\ 0 <= x_title /\ x_title + py_len title <= cols - 1
    /\ 0 <= x_subtitle /\ x_subtitle + py_len subtitle <= cols - 1.
Proof.
  unfold _build_title_win. rewrite !get_center_two.
  eexists. eexists. eexists. eexists. eexists.
  split; [reflexivity |]. split; [reflexivity |]. split; [reflexivity |].
  split; [reflexivity |]. split; [reflexivity |].
  split; [apply get_center_two |]. split; [apply get_center_two |].
  split; [reflexivity |].
  assert (Hfit : forall s : pystr,
             0 <= Z.max 0 (cols / 2 - py_len (py_slice_to s (cols - 1)) / 2
                           - py_len (py_slice_to s (cols - 1)) mod 2)
             /\ Z.max 0 (cols / 2 - py_len (py_slice_to s (cols - 1)) / 2
                         - py_len (py_slice_to s (cols - 1)) mod 2)
                + py_len (py_slice_to s (cols - 1)) <= cols - 1).
  { intro s. apply center_within.
    - unfold py_len. lia.
    - rewrite py_slice_to_len by lia. lia. }
  split; [apply Hfit |]. split; [apply Hfit |].
  split; apply Hfit.
Qed.

Lemma title_texts_fit_witness :
  exists (w : window) (x_title x_subtitle : Z) (title subtitle : pystr),
    _build_title_win sample_sequence 20 = Ok w
    /\ nlines w = 4 /\ ncols w = 20
    /\ title = py_slice_to _title_string (20 - 1)
    /\ subtitle
       = py_slice_to
           (fold_left (fun (subtitle : pystr) (kv : pystr * pystr) =>
                         subtitle ++ fst kv ++ str ": " ++ snd kv ++ str " | ")
                      (general_info sample_sequence) (str "| "))
           (20 - 1)
    /\ _get_center 20 (py_len title) 2 = Ok x_title
    /\ _get_center 20 (py_len subtitle) 2 = Ok x_subtitle
    /\ draws w
       = [ Hline 0 0 45%N 20; Addstr 1 x_title title;
           Hline 2 0 45%N 20; Addstr 3 x_subtitle subtitle ]
    /\ 0 <= x_title /\ x_title + py_len title <= 20 - 1
    /\ 0 <= x_subtitle /\ x_subtitle + py_len subtitle <= 20 - 1.
Proof.
  apply (title_texts_fit sample_sequence 20). lia.
Defined.

(** ** Status bar *)

Lemma dict_get_raise {V : Type} (d : list (string * V)) (k : string) (e : exn) :
  dict_get d k = Raise e -> e = KeyError /\ ~ In k (map fst d).
Proof.
  induction d as [| [k' v] d IH]; simpl; intro H.
  - injection H as <-. split; [reflexivity | tauto].
  - destruct (String.eqb_spec k k') as [-> | Hne]; [discriminate H |].
    destruct (IH H) as [He Hin]. split; [exact He |].
    intros [Heq | Hd]; [congruence | contradiction].
Qed.

Lemma dict_get_ok {V : Type} (d : list (string * V)) (k : string) (v : V) :
  dict_get d k = Ok v -> In k (map fst d).
Proof.
  induction d as [| [k' v'] d IH]; simpl; intro H; [discriminate H |].
  destruct (String.eqb_spec k k') as [-> | Hne]; [left; reflexivity |].
  right. exact (IH H).
Qed.

Lemma py_index_raise {A : Type} (s : list A) (i : Z) (e : exn) :
  py_index s i = Raise e -> e = IndexError.
Proof.
  unfold py_index. intro H.
  destruct (_ <? 0) in H; [congruence |].
  destruct (nth_error s _) in H; congruence.
Qed.

Lemma split_chars_no_sep (sep : ascii) (l cur : list ascii) :
  ~ In sep l -> split_chars sep cur l = [rev cur ++ l].
Proof.
  revert cur. induction l as [| c l IH]; intros cur Hno; simpl.
  - rewrite app_nil_r. reflexivity.
  - destruct (Ascii.eqb_spec c sep) as [-> | Hne].
    + exfalso. apply Hno. left. reflexivity.
    + rewrite IH by (intro Hin; apply Hno; right; exact Hin).
      simpl. rewrite <- app_assoc. reflexivity.
Qed.

Lemma split_chars_first (sep : ascii) (l cur : list ascii) :
  exists (a : list ascii) (rest : list (list ascii)),
    split_chars sep cur l = a :: rest.
Proof.
  revert cur. induction l as [| c l IH]; intro cur; simpl.
  - eexists. eexists. reflexivity.
  - destruct (Ascii.eqb c sep); [eexists; eexists; reflexivity | apply IH].
Qed.

Lemma split_chars_sep (sep : ascii) (l cur : list ascii) :
  In sep l ->
  exists (a b : list ascii) (rest : list (list ascii)),
    split_chars sep cur l = a :: b :: rest.
Proof.
  revert cur. induction l as [| c l IH]; intros cur Hin; [contradiction |].
  simpl. destruct (Ascii.eqb_spec c sep) as [-> | Hne].
  - destruct (split_chars_first sep l []) as (b & rest & ->).
    exists (rev cur), b, rest. reflexivity.
  - destruct Hin as [Heq | Hin]; [congruence |].
    exact (IH (c :: cur) Hin).
Qed.

(** The four ways [_get_statusbar_win] ends. *)
Lemma statusbar_cases (l : list Step) (rows cols : Z) (st gathered : string)
  (vp : view_params) :
  (~ In st (map fst _status_strings)
   /\ _get_statusbar_win l rows cols st gathered vp = Raise KeyError)
  \/ (exists s w,
        st <> "index"%string /\ dict_get _status_strings st = Ok s
        /\ _get_statusbar_win l rows cols st gathered vp = Ok (w, vp)
        /\ draws w
           = [ Addstr 0 0 (py_slice_to s (cols - 1));
               Addstr 0 (py_len (py_slice_to s (cols - 1)))
                 (py_spaces (cols - py_len (py_slice_to s (cols - 1)) - 1)) ])
  \/ (st = "index"%string
      /\ ~ In ":"%char (list_ascii_of_string gathered)
      /\ _get_statusbar_win l rows cols st gathered vp = Raise IndexError)
  \/ (exists part msg vp' w,
        st = "index"%string
        /\ In ":"%char (list_ascii_of_string gathered)
        /\ py_index (py_split ":" gathered) 1 = Ok part
        /\ index_entry l (py_strip part) vp = Ok (msg, vp')
        /\ _get_statusbar_win l rows cols st gathered vp = Ok (w, vp')
        /\ exists pre,
             draws w
             = pre
               ++ [ Addstr 0 0 (py_slice_to msg (cols - 1));
                    Addstr 0 (py_len (py_slice_to msg (cols - 1)))
                      (py_spaces
                         (cols - py_len (py_slice_to msg (cols - 1)) - 1)) ]).
Proof.
  destruct (dict_get _status_strings st) as [s | e] eqn:Ed.
  - destruct (String.eqb_spec st "index") as [-> | Hne].
    + right. right.
      destruct (in_dec ascii_dec ":"%char (list_ascii_of_string gathered))
        as [Hin | Hno].
      * right.
        destruct (split_chars_sep ":" _ [] Hin) as (a & b & rest & Hsplit).
        assert (Hpart : py_index (py_split ":" gathered) 1
                        = Ok (string_of_list_ascii b)).
        { unfold py_split. rewrite Hsplit. reflexivity. }
        destruct (index_entry_total l (py_strip (string_of_list_ascii b)) vp)
          as (msg & vp' & Hentry & _).
        destruct (statusbar_index_value l rows cols gathered _ vp vp' _ msg
                    Ed Hpart Hentry) as (w & Hw & Hd).
        exists (string_of_list_ascii b), msg, vp', w.
        repeat (split; [assumption || reflexivity |]).
        eexists [_; _]. exact Hd.
      * left. repeat (split; [assumption || reflexivity |]).
        unfold _get_statusbar_win. rewrite Ed.
        cbv beta iota delta [bind].
        replace (String.eqb "index" "index") with true by reflexivity.
        unfold py_split. rewrite (split_chars_no_sep ":" _ [] Hno).
        reflexivity.
    + right. left. eexists. eexists.
      split; [exact Hne |]. split; [reflexivity |].
      unfold _get_statusbar_win. rewrite Ed. cbv beta iota delta [bind].
      destruct (String.eqb_spec st "index"); [contradiction |].
      split; reflexivity.
  - left. destruct (dict_get_raise _ _ _ Ed) as [-> Hno].
    split; [exact Hno |].
    unfold _get_statusbar_win. rewrite Ed. reflexivity.
Qed.

(** X7: the status bar raises [KeyError] exactly for a status type that is
    none of [normal], [index], [invalid], [out_of_bounds] and [pass]. *)
Theorem statusbar_key_error (l : list Step) (rows cols : Z)
  (st gathered : string) (vp : view_params) :
  _get_statusbar_win l rows cols st gathered vp = Raise KeyError
  <-> ~ In st ["normal"; "index"; "invalid"; "out_of_bounds"; "pass"]%string.
Proof.
  change ["normal"; "index"; "invalid"; "out_of_bounds"; "pass"]%string
    with (map fst _status_strings).
  destruct (statusbar_cases l rows cols st gathered vp)
    as [[Hno Hr] | [(s & w & _ & Hd & Hr & _)
                   | [(-> & _ & Hr) | (p & m & v & w & -> & _ & _ & _ & Hr & _)]]];
    rewrite Hr; split; intro H; try discriminate H; try reflexivity;
    try exact Hno; exfalso; apply H.
  - exact (dict_get_ok _ _ _ Hd).
  - simpl. tauto.
  - simpl. tauto.
Qed.

(** X8: the status bar of an index entry raises [IndexError] exactly when
    the gathered line holds no colon, and returns a window whenever it
    holds one, whatever is entered. *)
Theorem statusbar_index_colon (l : list Step) (rows cols : Z)
  (gathered : string) (vp : view_params) :
  (_get_statusbar_win l rows cols "index" gathered vp = Raise IndexError
   <-> ~ In ":"%char (list_ascii_of_string gathered))
  /\ (In ":"%char (list_ascii_of_string gathered) ->
      exists (w : window) (vp' : view_params),
        _get_statusbar_win l rows cols "index" gathered vp = Ok (w, vp')).
Proof.
  destruct (statusbar_cases l rows cols "index" gathered vp)
    as [[Hno Hr] | [(s & w & Hne & _)
                   | [(_ & Hno & Hr)
                     | (p & m & v & w & _ & Hin & _ & _ & Hr & _)]]].
  - exfalso. apply Hno. simpl. tauto.
  - congruence.
  - rewrite Hr. split; [tauto | contradiction].
  - rewrite Hr. split.
    + split; [discriminate | contradiction].
    + intros _. exists w, v. reflexivity.
Qed.

(** What the status bar makes of the view parameters. *)
Lemma statusbar_params (l : list Step) (rows cols : Z)
  (st gathered : string) (vp vp' : view_params) (w : window)
  (Hrun : _get_statusbar_win l rows cols st gathered vp = Ok (w, vp')) :
  vp' = vp
  \/ (st = "index"%string
      /\ exists v : Z, 0 <= v <= py_len l - 1 /\ vp' = set_pass_id vp v).
Proof.
  destruct (statusbar_cases l rows cols st gathered vp)
    as [[_ Hr] | [(s & w1 & _ & _ & Hr & _)
                 | [(_ & _ & Hr)
                   | (p & m & v & w1 & Hst & _ & _ & He & Hr & _)]]];
    rewrite Hr in Hrun; try discriminate Hrun.
  - injection Hrun as _ <-. left. reflexivity.
  - injection Hrun as _ <-.
    destruct (index_entry_total l (py_strip p) vp) as (m2 & v2 & He2 & Hv2).
    rewrite He in He2. injection He2 as _ <-.
    destruct Hv2 as [-> | (n & -> & Hn)]; [left; reflexivity |].
    right. split; [exact Hst |]. exists n. split; [exact Hn | reflexivity].
Qed.

(** X9: whatever the status bar returns, it has written at most the pass
    id, and that only in an index entry and to a value within [0, N-1]. *)
Theorem statusbar_writes_pass_id (l : list Step) (rows cols : Z)
  (st gathered : string) (vp vp' : view_params) (w : window)
  (Hrun : _get_statusbar_win l rows cols st gathered vp = Ok (w, vp')) :
  vp' = vp
  \/ (st = "index"%string
      /\ exists v : Z, 0 <= v <= py_len l - 1 /\ vp' = set_pass_id vp v).
Proof.
  exact (statusbar_params l rows cols st gathered vp vp' w Hrun).
Qed.

Lemma statusbar_writes_pass_id_witness :
  set_pass_id index_params 3 = index_params
  \/ ("index"%string = "index"%string
      /\ exists v : Z,
           0 <= v <= py_len sample_steps - 1
           /\ set_pass_id index_params 3 = set_pass_id index_params v).
Proof.
  apply (statusbar_writes_pass_id sample_steps 24 80 "index" (prompt_line "3")
           index_params (set_pass_id index_params 3) sample_statusbar).
  reflexivity.
Defined.

(** X10: on a terminal of at least one column, the status bar ends by
    drawing its message from column 0 and spaces right after it, and the
    two together cover [cols - 1] cells: all of the row but its last cell. *)
Theorem statusbar_fills_row (l : list Step) (rows cols : Z)
  (st gathered : string) (vp vp' : view_params) (w : window)
  (Hcols : 1 <= cols)
  (Hrun : _get_statusbar_win l rows cols st gathered vp = Ok (w, vp')) :
  exists (pre : list draw) (msg : pystr) (k : Z),
    draws w = pre ++ [Addstr 0 0 msg; Addstr 0 (py_len msg) (py_spaces k)]
    /\ 0 <= k
    /\ py_len msg + py_len (py_spaces k) = cols - 1.
Proof.
  assert (Hfill : forall s : pystr,
             0 <= cols - py_len (py_slice_to s (cols - 1)) - 1
             /\ py_len (py_slice_to s (cols - 1))
                + py_len (py_spaces
                            (cols - py_len (py_slice_to s (cols - 1)) - 1))
                = cols - 1).
  { intro s. rewrite py_spaces_len, py_slice_to_len by lia.
    unfold py_len. lia. }
  destruct (statusbar_cases l rows cols st gathered vp)
    as [[_ Hr] | [(s & w1 & _ & _ & Hr & Hd)
                 | [(_ & _ & Hr)
                   | (p & m & v & w1 & _ & _ & _ & _ & Hr & pre & Hd)]]];
    rewrite Hr in Hrun; try discriminate Hrun;
    injection Hrun as <- <-.
  - exists [], (py_slice_to s (cols - 1)). eexists.
    split; [exact Hd | apply Hfill].
  - exists pre, (py_slice_to m (cols - 1)). eexists.
    split; [exact Hd | apply Hfill].
Qed.

Lemma statusbar_fills_row_witness :
  exists (pre : list draw) (msg : pystr) (k : Z),
    draws sample_statusbar
    = pre ++ [Addstr 0 0 msg; Addstr 0 (py_len msg) (py_spaces k)]
    /\ 0 <= k
    /\ py_len msg + py_len (py_spaces k) = 80 - 1.
Proof.
  apply (statusbar_fills_row sample_steps 24 80 "index" (prompt_line "3")
           index_params (set_pass_id index_params 3) sample_statusbar).
  - lia.
  - reflexivity.
Defined.

(** ** Overview *)

Lemma py_index_ends {A : Type} (l : list A) :
  l <> [] ->
  exists a z : A, py_index l 0 = Ok a /\ py_index l (-1) = Ok z.
Proof.
  intro Hne. destruct l as [| a l']; [congruence |].
  destruct (nth_error (a :: l') (List.length (a :: l') - 1)) as [z |] eqn:E.
  - exists a, z. split; [reflexivity | exact (py_index_minus_one _ _ E)].
  - apply nth_error_None in E. simpl in E. lia.
Qed.

(** X11: the overview statistics raise [IndexError] exactly on an empty
    sequence; on any other they are four rows, named depth, size, width and
    ops in this order. *)
Theorem overview_stats_empty (sq : TranspilationSequence) :
  (_get_overview_stats sq = Raise IndexError <-> steps sq = [])
  /\ (steps sq <> [] ->
      exists d s w o : init_final,
        _get_overview_stats sq
        = Ok [ ("depth"%string, d); ("size"%string, s); ("width"%string, w);
               ("ops"%string, o) ]).
Proof.
  destruct (steps sq) as [| a l'] eqn:Es.
  - split; [| congruence].
    split; [reflexivity |]. intros _.
    unfold _get_overview_stats. rewrite Es. reflexivity.
  - assert (Hne : steps sq <> []) by (rewrite Es; discriminate).
    destruct (py_index_ends (steps sq) Hne) as (s0 & sN & H0 & HN).
    rewrite (overview_stats_value sq s0 sN H0 HN).
    split; [split; discriminate |].
    intros _. eexists. eexists. eexists. eexists. reflexivity.
Qed.




(** ** Sessions *)

Lemma handle_keystroke_cursor (l : list Step) (key : Z) (vp : view_params) :
  curr_row vp = 0 /\ curr_col vp = 0 ->
  curr_row (_handle_keystroke l key vp) = 0
  /\ curr_col (_handle_keystroke l key vp) = 0.
Proof.
  intros [Hr Hc]. unfold _handle_keystroke.
  destruct (key =? KEY_UP); [simpl; rewrite Hr; split; [reflexivity | exact Hc] |].
  destruct (key =? KEY_LEFT); [simpl; rewrite Hc; split; [exact Hr | reflexivity] |].
  destruct (key_in key [ord "i"; ord "I"]); [split; assumption |].
  destruct (key_in key [ord "n"; ord "N"]).
  { destruct (status_in (status_type vp) ["index"%string; "pass"%string]);
      split; assumption. }
  destruct (key_in key [ord "p"; ord "P"]).
  { destruct (status_in (status_type vp) ["index"%string; "pass"%string]);
      split; assumption. }
  destruct (key_in key [ord "b"; ord "B"]); split; (reflexivity || assumption).
Qed.

Lemma reachable_cursor (l : list Step) (vp : view_params) :
  reachable l vp -> curr_row vp = 0 /\ curr_col vp = 0.
Proof.
  induction 1 as [| key vp _ IH | rows cols gathered w vp vp' _ IH Hrun
                  | c vp _ IH | v vp _ IH | v vp _ IH];
    try exact IH.
  - split; reflexivity.
  - apply handle_keystroke_cursor, IH.
  - destruct (statusbar_params _ _ _ _ _ _ _ _ Hrun)
      as [-> | (_ & v & _ & ->)]; exact IH.
Qed.

Lemma status_in_spec (s : string) :
  status_in s ["index"%string; "pass"%string] = true ->
  s = "index"%string \/ s = "pass"%string.
Proof.
  unfold status_in. simpl.
  destruct (String.eqb_spec s "index"); [left; assumption |].
  destruct (String.eqb_spec s "pass"); [right; assumption |].
  discriminate.
Qed.

Lemma handle_keystroke_status (l : list Step) (key : Z) (vp : view_params) :
  In (status_type vp) ["normal"; "index"; "pass"]%string ->
  In (status_type (_handle_keystroke l key vp)) ["normal"; "index"; "pass"]%string.
Proof.
  intro H. unfold _handle_keystroke.
  destruct (key =? KEY_UP); [exact H |].
  destruct (key =? KEY_LEFT); [exact H |].
  destruct (key_in key [ord "i"; ord "I"]); [simpl; tauto |].
  destruct (key_in key [ord "n"; ord "N"]).
  { destruct (status_in (status_type vp) ["index"%string; "pass"%string]);
      [simpl; tauto | exact H]. }
  destruct (key_in key [ord "p"; ord "P"]).
  { destruct (status_in (status_type vp) ["index"%string; "pass"%string]);
      [simpl; tauto | exact H]. }
  destruct (key_in key [ord "b"; ord "B"]); [simpl; tauto | exact H].
Qed.

Lemma reachable_status (l : list Step) (vp : view_params) :
  reachable l vp -> In (status_type vp) ["normal"; "index"; "pass"]%string.
Proof.
  induction 1 as [| key vp _ IH | rows cols gathered w vp vp' _ IH Hrun
                  | c vp _ IH | v vp _ IH | v vp _ IH];
    try exact IH.
  - simpl. tauto.
  - apply handle_keystroke_status, IH.
  - destruct (statusbar_params _ _ _ _ _ _ _ _ Hrun)
      as [-> | (_ & v & _ & ->)]; exact IH.
Qed.

(** C5: in every reachable view parameters the key [i] or [I] switches the
    status type to [index], and changes nothing else, exactly when the
    status type is [normal] or [pass]; from any other status type it
    leaves the view parameters as they are. *)
Theorem index_key_mode_entry (l : list Step) (key : Z) (vp : view_params)
  (Hreach : reachable l vp)
  (Hkey : key = ord "i" \/ key = ord "I") :
  (status_type vp = "normal"%string \/ status_type vp = "pass"%string ->
   _handle_keystroke l key vp = set_status_type vp "index"
   /\ status_type (_handle_keystroke l key vp) = "index"%string
   /\ _handle_keystroke l key vp <> vp)
  /\ (~ (status_type vp = "normal"%string \/ status_type vp = "pass"%string) ->
      _handle_keystroke l key vp = vp)
  /\ (status_type (_handle_keystroke l key vp) <> status_type vp
      <-> status_type vp = "normal"%string \/ status_type vp = "pass"%string).
Proof.
  destruct (index_key_enters l key vp Hkey) as [E Hsame].
  pose proof (reachable_status l vp Hreach) as Hst. simpl in Hst.
  split; [| split].
  - intros Hfrom. split; [exact E |]. split; [rewrite E; reflexivity |].
    intro Heq. apply Hsame in Heq.
    destruct Hfrom as [H | H]; rewrite H in Heq; discriminate Heq.
  - intro Hnot. apply Hsame.
    destruct Hst as [H | [H | [H | []]]]; [| symmetry; exact H |];
      exfalso; apply Hnot; [left | right]; symmetry; exact H.
  - rewrite E. simpl. split.
    + intro Hne.
      destruct Hst as [H | [H | [H | []]]];
        [left; symmetry; exact H | | right; symmetry; exact H].
      exfalso. apply Hne. exact H.
    + intros [H | H]; rewrite H; discriminate.
Qed.

Lemma index_key_mode_entry_witness :
  ((status_type _reset_view_params = "normal"%string
    \/ status_type _reset_view_params = "pass"%string ->
    _handle_keystroke sample_steps 105 _reset_view_params
    = set_status_type _reset_view_params "index"
    /\ status_type (_handle_keystroke sample_steps 105 _reset_view_params)
       = "index"%string
    /\ _handle_keystroke sample_steps 105 _reset_view_params
       <> _reset_view_params)
   /\ (~ (status_type _reset_view_params = "normal"%string
          \/ status_type _reset_view_params = "pass"%string) ->
       _handle_keystroke sample_steps 105 _reset_view_params
       = _reset_view_params)
   /\ (status_type (_handle_keystroke sample_steps 105 _reset_view_params)
       <> status_type _reset_view_params
       <-> status_type _reset_view_params = "normal"%string
           \/ status_type _reset_view_params = "pass"%string))
  /\ ((status_type index_params = "normal"%string
       \/ status_type index_params = "pass"%string ->
       _handle_keystroke sample_steps 73 index_params
       = set_status_type index_params "index"
       /\ status_type (_handle_keystroke sample_steps 73 index_params)
          = "index"%string
       /\ _handle_keystroke sample_steps 73 index_params <> index_params)
      /\ (~ (status_type index_params = "normal"%string
             \/ status_type index_params = "pass"%string) ->
          _handle_keystroke sample_steps 73 index_params = index_params)
      /\ (status_type (_handle_keystroke sample_steps 73 index_params)
          <> status_type index_params
          <-> status_type index_params = "normal"%string
              \/ status_type index_params = "pass"%string)).
Proof.
  split.
  - apply (index_key_mode_entry sample_steps 105 _reset_view_params).
    + apply reach_reset.
    + left. reflexivity.
  - apply (index_key_mode_entry sample_steps 73 index_params).
    + exact (reach_key sample_steps 105 _ (reach_reset sample_steps)).
    + right. reflexivity.
Defined.

Lemma handle_keystroke_pass_id (l : list Step) (key : Z) (vp : view_params) :
  l <> [] ->
  -1 <= pass_id vp <= py_len l - 1 ->
  -1 <= pass_id (_handle_keystroke l key vp) <= py_len l - 1.
Proof.
  intros Hne H.
  assert (Hlen : 1 <= py_len l).
  { unfold py_len. destruct l; [congruence | simpl List.length; lia]. }
  unfold _handle_keystroke.
  destruct (key =? KEY_UP); [exact H |].
  destruct (key =? KEY_LEFT); [exact H |].
  destruct (key_in key [ord "i"; ord "I"]); [exact H |].
  destruct (key_in key [ord "n"; ord "N"]).
  { destruct (status_in (status_type vp) ["index"%string; "pass"%string]);
      [simpl; lia | exact H]. }
  destruct (key_in key [ord "p"; ord "P"]).
  { destruct (status_in (status_type vp) ["index"%string; "pass"%string]);
      [simpl; lia | exact H]. }
  destruct (key_in key [ord "b"; ord "B"]); [simpl; lia | exact H].
Qed.

Lemma reachable_pass_id (l : list Step) (vp : view_params) :
  l <> [] -> reachable l vp -> -1 <= pass_id vp <= py_len l - 1.
Proof.
  intro Hne.
  assert (Hlen : 1 <= py_len l).
  { unfold py_len. destruct l; [congruence | simpl List.length; lia]. }
  induction 1 as [| key vp _ IH | rows cols gathered w vp vp' _ IH Hrun
                  | c vp _ IH | v vp _ IH | v vp _ IH];
    try exact IH.
  - simpl. lia.
  - apply handle_keystroke_pass_id; assumption.
  - destruct (statusbar_params _ _ _ _ _ _ _ _ Hrun)
      as [-> | (_ & v & Hv & ->)]; [exact IH | simpl; lia].
Qed.

Lemma build_title_win_ok (sq : TranspilationSequence) (cols : Z) :
  exists w : window, _build_title_win sq cols = Ok w.
Proof.
  unfold _build_title_win. rewrite !get_center_two.
  eexists. reflexivity.
Qed.

Lemma display_ok_steps (tabulate : list (pystr * Z * Z) -> list pystr)
  (sq : TranspilationSequence) (height width : Z) (turns : list cycle)
  (view : CLIView) :
  display tabulate sq height width turns = Ok view -> steps sq <> [].
Proof.
  intros Hrun Hempty. unfold display, _refresh_base_windows in Hrun.
  cbn [transpilation_sequence _view_params] in Hrun.
  destruct (build_title_win_ok sq width) as [t Ht]. rewrite Ht in Hrun.
  cbv beta iota delta [bind] in Hrun.
  unfold _build_overview_win, _get_overview_stats in Hrun.
  rewrite Hempty in Hrun. discriminate Hrun.
Qed.

(** X15: in a session the cursor never leaves the origin: the view
    parameters the loop waits in have the cursor at row 0 and column 0,
    whatever keys were pressed (Up and Left clamp at 0 and nothing moves the
    cursor down or right). *)
Theorem session_cursor_at_origin
  (tabulate : list (pystr * Z * Z) -> list pystr)
  (sq : TranspilationSequence) (height width : Z) (turns : list cycle)
  (view : CLIView)
  (Hrun : display tabulate sq height width turns = Ok view) :
  curr_row (_view_params view) = 0 /\ curr_col (_view_params view) = 0.
Proof.
  apply display_reachable in Hrun. destruct Hrun as [_ Hreach].
  exact (reachable_cursor _ _ Hreach).
Qed.

Lemma session_cursor_at_origin_witness :
  curr_row (_view_params sample_view) = 0
  /\ curr_col (_view_params sample_view) = 0.
Proof.
  apply (session_cursor_at_origin plain_table sample_sequence 24 80
           sample_turns sample_view).
  vm_compute. reflexivity.
Defined.

(** X16: in a session the status type is [normal], [index] or [pass] at
    every wait for a key: an entry that is invalid or out of bounds never
    becomes the status type. *)
Theorem session_status_types
  (tabulate : list (pystr * Z * Z) -> list pystr)
  (sq : TranspilationSequence) (height width : Z) (turns : list cycle)
  (view : CLIView)
  (Hrun : display tabulate sq height width turns = Ok view) :
  In (status_type (_view_params view)) ["normal"; "index"; "pass"]%string.
Proof.
  apply display_reachable in Hrun. destruct Hrun as [_ Hreach].
  exact (reachable_status _ _ Hreach).
Qed.

Lemma session_status_types_witness :
  In (status_type (_view_params sample_view)) ["normal"; "index"; "pass"]%string.
Proof.
  apply (session_status_types plain_table sample_sequence 24 80
           sample_turns sample_view).
  vm_compute. reflexivity.
Defined.

(** X17: in a session the view keeps its sequence, which is not empty, and
    the pass id lies within [-1, N-1] at every wait for a key. *)
Theorem session_pass_id_range
  (tabulate : list (pystr * Z * Z) -> list pystr)
  (sq : TranspilationSequence) (height width : Z) (turns : list cycle)
  (view : CLIView)
  (Hrun : display tabulate sq height width turns = Ok view) :
  transpilation_sequence view = sq
  /\ 1 <= py_len (steps sq)
  /\ -1 <= pass_id (_view_params view) <= py_len (steps sq) - 1.
Proof.
  pose proof (display_ok_steps _ _ _ _ _ _ Hrun) as Hne.
  apply display_reachable in Hrun. destruct Hrun as [Hsq Hreach].
  split; [exact Hsq |]. split.
  - unfold py_len. destruct (steps sq); [congruence | simpl List.length; lia].
  - exact (reachable_pass_id _ _ Hne Hreach).
Qed.

Lemma session_pass_id_range_witness :
  transpilation_sequence sample_view = sample_sequence
  /\ 1 <= py_len (steps sample_sequence)
  /\ -1 <= pass_id (_view_params sample_view) <= py_len (steps sample_sequence) - 1.
Proof.
  apply (session_pass_id_range plain_table sample_sequence 24 80
           sample_turns sample_view).
  vm_compute. reflexivity.
Defined.

Lemma display_loop_at_quit
  (tabulate : list (pystr * Z * Z) -> list pystr) (key : Z)
  (turns : list cycle) (view : CLIView) :
  key = ord "q" \/ key = ord "Q" ->
  display_loop tabulate key turns view = Ok view.
Proof.
  intros [-> | ->]; destruct turns; reflexivity.
Qed.

Lemma display_loop_quit
  (tabulate : list (pystr * Z * Z) -> list pystr) (c : cycle)
  (rest : list cycle) :
  c_key c = ord "q" \/ c_key c = ord "Q" ->
  forall (pre : list cycle) (key : Z) (view : CLIView),
    display_loop tabulate key (pre ++ c :: rest) view
    = display_loop tabulate key (pre ++ [c]) view.
Proof.
  intros Hq pre.
  induction pre as [| d pre IH]; intros key view; simpl app;
    cbn [display_loop]; destruct (key_in key [ord "q"; ord "Q"]);
    try reflexivity.
  - destruct (display_body tabulate key c view) as [view1 | e];
      [| reflexivity].
    cbv beta iota delta [bind].
    rewrite display_loop_at_quit by exact Hq.
    destruct (key_in (c_key c) [ord "q"; ord "Q"]); reflexivity.
  - destruct (display_body tabulate key d view) as [view1 | e];
      [| reflexivity].
    cbv beta iota delta [bind]. apply IH.
Qed.

(** X20: the session ends at the first q or Q: the turns after the one
    that read it change nothing of what [display] returns or raises. *)
Theorem display_stops_at_quit (tabulate : list (pystr * Z * Z) -> list pystr)
  (sq : TranspilationSequence) (height width : Z) (pre rest : list cycle)
  (c : cycle)
  (Hq : c_key c = ord "q" \/ c_key c = ord "Q") :
  display tabulate sq height width (pre ++ c :: rest)
  = display tabulate sq height width (pre ++ [c]).
Proof.
  unfold display.
  match goal with
  | |- context [_refresh_base_windows ?t ?r ?h ?w ?g ?v] =>
      destruct (_refresh_base_windows t r h w g v) as [view1 | e];
      [| reflexivity]
  end.
  cbv beta iota delta [bind].
  apply display_loop_quit. exact Hq.
Qed.

Lemma display_stops_at_quit_witness :
  display plain_table sample_sequence 24 80
    ([] ++ {| c_height := 24; c_width := 80; c_gathered := EmptyString;
              c_key := 113 |} :: sample_turns)
  = display plain_table sample_sequence 24 80
      ([] ++ [ {| c_height := 24; c_width := 80; c_gathered := EmptyString;
                  c_key := 113 |} ]).
Proof.
  apply (display_stops_at_quit plain_table sample_sequence 24 80 []
           sample_turns).
  left. reflexivity.
Defined.

(** X21: a turn of the loop that returns has dispatched the key, built the
    status bar anew with [_get_statusbar_win] for the size read and the
    status type after the dispatch, and recorded the size read; when the
    size equals the recorded one the title window, the overview window and
    the start column of the passes are kept, and when it differs the title
    and the overview are built anew for the width read, before the status
    bar. *)
Theorem display_body_resize (tabulate : list (pystr * Z * Z) -> list pystr)
  (key : Z) (c : cycle) (view view' : CLIView)
  (Hrun : display_body tabulate key c view = Ok view') :
  exists (w : window) (vp1 vp2 : view_params),
    status_type vp1
    = status_type (_handle_keystroke (steps (transpilation_sequence view)) key
                                     (_view_params view))
    /\ _get_statusbar_win (steps (transpilation_sequence view)) (c_height c)
         (c_width c) (status_type vp1) (c_gathered c) vp1
       = Ok (w, vp2)
    /\ _status_bar view' = Some w
    /\ _view_params view'
       = set_last_height (set_last_width vp2 (c_width c)) (c_height c)
    /\ transpilation_sequence view' = transpilation_sequence view
    /\ last_width (_view_params view') = c_width c
    /\ last_height (_view_params view') = c_height c
    /\ (last_width (_view_params view) = c_width c ->
        last_height (_view_params view) = c_height c ->
        vp1 = _handle_keystroke (steps (transpilation_sequence view)) key
                                (_view_params view)
        /\ _title view' = _title view
        /\ _overview view' = _overview view
        /\ transpiler_start_col (_view_params view')
           = transpiler_start_col (_view_params view))
    /\ (last_width (_view_params view) <> c_width c
        \/ last_height (_view_params view) <> c_height c ->
        exists t o : window,
          _build_title_win (transpilation_sequence view) (c_width c) = Ok t
          /\ _build_overview_win tabulate (transpilation_sequence view)
               (c_width c)
               (_handle_keystroke (steps (transpilation_sequence view)) key
                                  (_view_params view))
             = Ok (o, vp1)
          /\ _title view' = Some t
          /\ _overview view' = Some o).
Proof.
  unfold display_body, _refresh_base_windows in Hrun.
  cbn [with_view_params transpilation_sequence _view_params] in Hrun.
  destruct (handle_keystroke_frame (steps (transpilation_sequence view)) key
              (_view_params view)) as (_ & _ & _ & Hcol).
  destruct (negb (last_width (_view_params view) =? c_width c)
            || negb (last_height (_view_params view) =? c_height c)) eqn:Eb.
  - apply orb_true_iff in Eb.
    rewrite !negb_true_iff, !Z.eqb_neq in Eb.
    destruct (_build_title_win (transpilation_sequence view) (c_width c))
      as [t | e]; [| discriminate Hrun].
    cbv beta iota delta [bind] in Hrun.
    destruct (_build_overview_win tabulate (transpilation_sequence view)
                (c_width c) _) as [[o vp1] | e] eqn:Eo; [| discriminate Hrun].
    cbn [fst snd _view_params _title _overview transpilation_sequence] in Hrun.
    destruct (_get_statusbar_win (steps (transpilation_sequence view))
                (c_height c) (c_width c) (status_type vp1) (c_gathered c) vp1)
      as [[sw vp2] | e] eqn:Es; [| discriminate Hrun].
    injection Hrun as <-.
    exists sw, vp1, vp2.
    cbn [fst snd _view_params _title _overview _status_bar
           transpilation_sequence with_view_params].
    split.
    { destruct (build_overview_win_params _ _ _ _ _ _ Eo) as [c0 ->].
      reflexivity. }
    split; [exact Es |]. split; [reflexivity |]. split; [reflexivity |].
    split; [reflexivity |]. split; [reflexivity |]. split; [reflexivity |].
    split.
    + intros Hw Hh. exfalso. tauto.
    + intros _. exists t, o. repeat split.
  - apply orb_false_iff in Eb.
    rewrite !negb_false_iff, !Z.eqb_eq in Eb.
    cbv beta iota delta [bind] in Hrun.
    cbn [fst snd _view_params _title _overview transpilation_sequence] in Hrun.
    match type of Hrun with
    | context [_get_statusbar_win ?l ?r ?c2 ?s ?g ?v] =>
        destruct (_get_statusbar_win l r c2 s g v) as [[sw vp2] | e] eqn:Es;
        [| discriminate Hrun]
    end.
    injection Hrun as <-.
    eexists sw, _, vp2.
    cbn [fst snd _view_params _title _overview _status_bar
           transpilation_sequence with_view_params].
    split; [reflexivity |].
    split; [exact Es |]. split; [reflexivity |]. split; [reflexivity |].
    split; [reflexivity |]. split; [reflexivity |]. split; [reflexivity |].
    split.
    + intros _ _. split; [reflexivity |].
      split; [reflexivity |]. split; [reflexivity |].
      destruct (statusbar_params _ _ _ _ _ _ _ _ Es)
        as [-> | (_ & v & _ & ->)]; exact Hcol.
    + intros [H | H]; exfalso; tauto.
Qed.

Lemma display_body_resize_witness :
  exists (w : window) (vp1 vp2 : view_params),
    status_type vp1
    = status_type (_handle_keystroke (steps (transpilation_sequence sample_view))
                                     (ord "n") (_view_params sample_view))
    /\ _get_statusbar_win (steps (transpilation_sequence sample_view))
         (c_height resize_turn) (c_width resize_turn) (status_type vp1)
         (c_gathered resize_turn) vp1
       = Ok (w, vp2)
    /\ _status_bar resized_view = Some w
    /\ _view_params resized_view
       = set_last_height (set_last_width vp2 (c_width resize_turn))
                         (c_height resize_turn)
    /\ transpilation_sequence resized_view = transpilation_sequence sample_view
    /\ last_width (_view_params resized_view) = c_width resize_turn
    /\ last_height (_view_params resized_view) = c_height resize_turn
    /\ (last_width (_view_params sample_view) = c_width resize_turn ->
        last_height (_view_params sample_view) = c_height resize_turn ->
        vp1 = _handle_keystroke (steps (transpilation_sequence sample_view))
                                (ord "n") (_view_params sample_view)
        /\ _title resized_view = _title sample_view
        /\ _overview resized_view = _overview sample_view
        /\ transpiler_start_col (_view_params resized_view)
           = transpiler_start_col (_view_params sample_view))
    /\ (last_width (_view_params sample_view) <> c_width resize_turn
        \/ last_height (_view_params sample_view) <> c_height resize_turn ->
        exists t o : window,
          _build_title_win (transpilation_sequence sample_view)
            (c_width resize_turn) = Ok t
          /\ _build_overview_win plain_table
               (transpilation_sequence sample_view) (c_width resize_turn)
               (_handle_keystroke (steps (transpilation_sequence sample_view))
                  (ord "n") (_view_params sample_view))
             = Ok (o, vp1)
          /\ _title resized_view = Some t
          /\ _overview resized_view = Some o).
Proof.
  apply (display_body_resize plain_table (ord "n") resize_turn sample_view
           resized_view).
  vm_compute. reflexivity.
Defined.

(** ** The argument panel *)

Lemma append_at_fst (ch : list widget * list widget) (label : widget) :
  append_at ch 0 label = (fst ch ++ [label], snd ch).
Proof. reflexivity. Qed.

Lemma append_at_snd (ch : list widget * list widget) (label : widget) :
  append_at ch 1 label = (fst ch, snd ch ++ [label]).
Proof. reflexivity. Qed.

(** Once the box id is 1, at a position from [n // 2] on, all the labels
    left go to the second boxes. *)
Lemma args_loop_second (n : Z) (items : list (pystr * option pystr)) :
  forall (i : Z) (st : args_state),
    box_index st = 1 -> n / 2 <= i ->
    args_loop n i items st
    = {| box_index := 1;
         key_children :=
           (fst (key_children st),
            snd (key_children st)
            ++ map (fun kv => key_label (fst kv)) (present_args items));
         value_children :=
           (fst (value_children st),
            snd (value_children st)
            ++ map (fun kv => value_label (snd kv)) (present_args items)) |}.
Proof.
  induction items as [| [key [value |]] items IH]; intros i st Hbox Hi;
    cbn [args_loop].
  - simpl. rewrite !app_nil_r. destruct st as [b [k0 k1] [v0 v1]].
    simpl in *. subst. reflexivity.
  - rewrite IH; [| simpl; destruct (i <? n / 2) eqn:E;
                    [apply Z.ltb_lt in E; lia | reflexivity] | lia].
    simpl. rewrite Hbox, !append_at_snd. simpl.
    rewrite <- !app_assoc. reflexivity.
  - rewrite IH by (assumption || lia). reflexivity.
Qed.

(** While the box id is 0 nothing is in the second boxes yet, and the loop
    splits the arguments left into a first part for the first boxes and a
    second part for the second boxes. *)
Lemma args_loop_split (n : Z) (items : list (pystr * option pystr)) :
  forall (i : Z) (st : args_state),
    box_index st = 0 ->
    exists (L0 L1 : list (pystr * pystr)),
      L0 ++ L1 = present_args items
      /\ (present_args items <> [] -> L0 <> [])
      /\ key_children (args_loop n i items st)
         = (fst (key_children st) ++ map (fun kv => key_label (fst kv)) L0,
            snd (key_children st) ++ map (fun kv => key_label (fst kv)) L1)
      /\ value_children (args_loop n i items st)
         = (fst (value_children st) ++ map (fun kv => value_label (snd kv)) L0,
            snd (value_children st) ++ map (fun kv => value_label (snd kv)) L1).
Proof.
  induction items as [| [key [value |]] items IH]; intros i st Hbox;
    cbn [args_loop].
  - exists [], []. simpl. rewrite !app_nil_r.
    repeat split; try tauto; apply surjective_pairing.
  - destruct (i <? n / 2) eqn:E.
    + destruct (IH (i + 1)
                  {| box_index := 0;
                     key_children :=
                       append_at (key_children st) (box_index st) (key_label key);
                     value_children :=
                       append_at (value_children st) (box_index st)
                                 (value_label value) |} eq_refl)
        as (L0 & L1 & Happ & _ & Hk & Hv).
      exists ((key, value) :: L0), L1.
      split; [simpl; rewrite Happ; reflexivity |].
      split; [discriminate |].
      rewrite Hk, Hv, Hbox, !append_at_fst. simpl.
      rewrite <- !app_assoc. split; reflexivity.
    + apply Z.ltb_ge in E.
      rewrite args_loop_second by (reflexivity || lia).
      exists [(key, value)], (present_args items).
      split; [reflexivity |]. split; [discriminate |].
      simpl. rewrite Hbox, !append_at_fst. simpl. split; reflexivity.
  - destruct (IH (i + 1) st Hbox) as (L0 & L1 & Happ & Hne & Hk & Hv).
    exists L0, L1. repeat split; assumption.
Qed.

(** X22: the argument panel shows every keyword argument that is not
    [None] exactly once and in order: the labels of the first pair of boxes
    followed by those of the second pair are the labels of these
    arguments, the key boxes and the value boxes are split alike, and the
    first pair of boxes is not empty unless there is nothing to show. *)
Theorem args_panel_partition (kwargs : list (pystr * option pystr)) :
  exists (L0 L1 : list (pystr * pystr)),
    L0 ++ L1 = present_args kwargs
    /\ (present_args kwargs <> [] -> L0 <> [])
    /\ get_args_panel kwargs
       = HBox
           [ HBox [ VBox (map (fun kv => key_label (fst kv)) L0) box_kwargs;
                    VBox (map (fun kv => value_label (snd kv)) L0) box_kwargs ]
                  [("width", "50%")]%string;
             HBox [ VBox (map (fun kv => key_label (fst kv)) L1) box_kwargs;
                    VBox (map (fun kv => value_label (snd kv)) L1) box_kwargs ]
                  [("width", "50%")]%string ]
           [("margin", "10px 0 0 15px")]%string.
Proof.
  destruct (args_loop_split (py_len kwargs) kwargs 0
              {| box_index := 0; key_children := ([], []);
                 value_children := ([], []) |} eq_refl)
    as (L0 & L1 & Happ & Hne & Hk & Hv).
  exists L0, L1. split; [exact Happ |]. split; [exact Hne |].
  unfold get_args_panel. rewrite Hk, Hv. reflexivity.
Qed.

Lemma args_loop_full (n : Z) (items : list (pystr * option pystr)) :
  (forall kv, In kv items -> snd kv <> None) ->
  forall (i : Z) (st : args_state),
    box_index st = 0 -> 0 <= i <= n / 2 ->
    key_children (args_loop n i items st)
    = (fst (key_children st)
       ++ map (fun kv => key_label (fst kv))
              (firstn (Z.to_nat (n / 2 - i + 1)) (present_args items)),
       snd (key_children st)
       ++ map (fun kv => key_label (fst kv))
              (skipn (Z.to_nat (n / 2 - i + 1)) (present_args items)))
    /\ value_children (args_loop n i items st)
       = (fst (value_children st)
          ++ map (fun kv => value_label (snd kv))
                 (firstn (Z.to_nat (n / 2 - i + 1)) (present_args items)),
          snd (value_children st)
          ++ map (fun kv => value_label (snd kv))
                 (skipn (Z.to_nat (n / 2 - i + 1)) (present_args items))).
Proof.
  induction items as [| [key [value |]] items IH]; intros Hall i st Hbox Hi;
    cbn [args_loop].
  - simpl. rewrite firstn_nil, skipn_nil. simpl. rewrite !app_nil_r.
    split; apply surjective_pairing.
  - assert (Hall' : forall kv, In kv items -> snd kv <> None)
      by (intros kv Hkv; apply Hall; right; exact Hkv).
    replace (Z.to_nat (n / 2 - i + 1)) with (S (Z.to_nat (n / 2 - i))) by lia.
    destruct (i <? n / 2) eqn:E.
    + apply Z.ltb_lt in E.
      destruct (IH Hall' (i + 1)
                  {| box_index := 0;
                     key_children :=
                       append_at (key_children st) (box_index st) (key_label key);
                     value_children :=
                       append_at (value_children st) (box_index st)
                                 (value_label value) |} eq_refl)
        as [Hk Hv]; [lia |].
      rewrite Hk, Hv, Hbox, !append_at_fst.
      replace (n / 2 - (i + 1) + 1) with (n / 2 - i) by lia.
      simpl. rewrite <- !app_assoc. split; reflexivity.
    + apply Z.ltb_ge in E.
      rewrite args_loop_second by (reflexivity || lia).
      replace (n / 2 - i) with 0 by lia.
      simpl. rewrite Hbox, !append_at_fst. simpl. split; reflexivity.
  - exfalso. apply (Hall (key, None)); [left; reflexivity | reflexivity].
Qed.

(** X23: when no keyword argument is [None], the first pair of boxes takes
    the first [n // 2 + 1] of the [n] arguments and the second pair the
    rest: a box id is flipped after the label was added, so the first pair
    holds one label more than half; with one or two arguments the second
    pair stays empty. *)
Theorem args_panel_split (kwargs : list (pystr * option pystr))
  (Hall : forall kv, In kv kwargs -> snd kv <> None) :
  get_args_panel kwargs
  = HBox
      [ HBox [ VBox (map (fun kv => key_label (fst kv))
                         (firstn (Z.to_nat (py_len kwargs / 2 + 1))
                                 (present_args kwargs)))
                    box_kwargs;
               VBox (map (fun kv => value_label (snd kv))
                         (firstn (Z.to_nat (py_len kwargs / 2 + 1))
                                 (present_args kwargs)))
                    box_kwargs ]
             [("width", "50%")]%string;
        HBox [ VBox (map (fun kv => key_label (fst kv))
                         (skipn (Z.to_nat (py_len kwargs / 2 + 1))
                                (present_args kwargs)))
                    box_kwargs;
               VBox (map (fun kv => value_label (snd kv))
                         (skipn (Z.to_nat (py_len kwargs / 2 + 1))
                                (present_args kwargs)))
                    box_kwargs ]
             [("width", "50%")]%string ]
      [("margin", "10px 0 0 15px")]%string
  /\ List.length (present_args kwargs) = List.length kwargs
  /\ (py_len kwargs <= 2 ->
      skipn (Z.to_nat (py_len kwargs / 2 + 1)) (present_args kwargs) = []).
Proof.
  assert (Hlen : List.length (present_args kwargs) = List.length kwargs).
  { clear - Hall. induction kwargs as [| [key [value |]] kwargs IH].
    - reflexivity.
    - simpl. f_equal. apply IH. intros kv Hkv. apply Hall. right. exact Hkv.
    - exfalso. apply (Hall (key, None)); [left; reflexivity | reflexivity]. }
  assert (Hdiv : 0 <= py_len kwargs / 2)
    by (unfold py_len; apply Z.div_pos; lia).
  split; [| split; [exact Hlen |]].
  - destruct (args_loop_full (py_len kwargs) kwargs Hall 0
                {| box_index := 0; key_children := ([], []);
                   value_children := ([], []) |} eq_refl) as [Hk Hv];
      [lia |].
    unfold get_args_panel. rewrite Hk, Hv.
    replace (py_len kwargs / 2 - 0 + 1) with (py_len kwargs / 2 + 1) by lia.
    reflexivity.
  - intro Hsmall. apply skipn_all2. rewrite Hlen.
    unfold py_len in *.
    destruct kwargs as [| a [| b [| c kwargs']]]; simpl List.length in *;
      simpl; lia.
Qed.

Lemma args_panel_split_witness :
  get_args_panel full_kwargs
  = HBox
      [ HBox [ VBox (map (fun kv => key_label (fst kv))
                         (firstn (Z.to_nat (py_len full_kwargs / 2 + 1))
                                 (present_args full_kwargs)))
                    box_kwargs;
               VBox (map (fun kv => value_label (snd kv))
                         (firstn (Z.to_nat (py_len full_kwargs / 2 + 1))
                                 (present_args full_kwargs)))
                    box_kwargs ]
             [("width", "50%")]%string;
        HBox [ VBox (map (fun kv => key_label (fst kv))
                         (skipn (Z.to_nat (py_len full_kwargs / 2 + 1))
                                (present_args full_kwargs)))
                    box_kwargs;
               VBox (map (fun kv => value_label (snd kv))
                         (skipn (Z.to_nat (py_len full_kwargs / 2 + 1))
                                (present_args full_kwargs)))
                    box_kwargs ]
             [("width", "50%")]%string ]
      [("margin", "10px 0 0 15px")]%string
  /\ List.length (present_args full_kwargs) = List.length full_kwargs
  /\ (py_len full_kwargs <= 2 ->
      skipn (Z.to_nat (py_len full_kwargs / 2 + 1)) (present_args full_kwargs)
      = []).
Proof.
  apply (args_panel_split full_kwargs).
  intros kv [<- | [<- | [<- | [<- | []]]]]; discriminate.
Defined.

(** ** Entering a numeral *)

Lemma dropwhile_clean {A : Type} (f : A -> bool) (l : list A) :
  Forall (fun a => f a = false) l -> dropwhile f l = l.
Proof.
  intros [| a l' Ha _]; [reflexivity |]. simpl. rewrite Ha. reflexivity.
Qed.

Lemma strip_with_clean (f : ascii -> bool) (l : list ascii) :
  Forall (fun a => f a = false) l -> strip_with f l = l.
Proof.
  intro H. unfold strip_with.
  rewrite (dropwhile_clean f l H).
  rewrite (dropwhile_clean f (rev l)) by (apply Forall_rev; exact H).
  apply rev_involutive.
Qed.

Lemma uint_chars (d : Decimal.uint) :
  Forall numeral_char (list_ascii_of_string (NilEmpty.string_of_uint d)).
Proof.
  induction d; simpl; constructor; try exact IHd;
    repeat split; discriminate.
Qed.

Lemma numeral_chars (v : Z) :
  Forall numeral_char
         (list_ascii_of_string (NilZero.string_of_int (Z.to_int v))).
Proof.
  destruct v as [| p | p]; simpl.
  - constructor; [repeat split; discriminate | constructor].
  - unfold NilZero.string_of_uint.
    destruct (Pos.to_uint p) eqn:E; try (rewrite <- E; apply uint_chars).
    constructor; [repeat split; discriminate | constructor].
  - constructor; [repeat split; discriminate |].
    unfold NilZero.string_of_uint.
    destruct (Pos.to_uint p) eqn:E; try (rewrite <- E; apply uint_chars).
    constructor; [repeat split; discriminate | constructor].
Qed.

Lemma parse_digits_pos (d : Decimal.uint) :
  forall p : positive,
    parse_digits (Z.pos p) (list_ascii_of_string (NilEmpty.string_of_uint d))
    = Some (Z.pos (Pos.of_uint_acc d p)).
Proof.
  induction d; intro p; simpl list_ascii_of_string; cbn [parse_digits];
    try reflexivity;
    match goal with
    | |- context [digit_val ?c] =>
        let k := eval vm_compute in (digit_val c) in
        change (digit_val c) with k
    end;
    cbv iota; cbn [Pos.of_uint_acc]; rewrite <- IHd; f_equal; lia.
Qed.

Lemma parse_digits_zero (d : Decimal.uint) :
  parse_digits 0 (list_ascii_of_string (NilEmpty.string_of_uint d))
  = Some (Z.of_N (Pos.of_uint d)).
Proof.
  induction d; simpl list_ascii_of_string; cbn [parse_digits];
    try reflexivity;
    match goal with
    | |- context [digit_val ?c] =>
        let k := eval vm_compute in (digit_val c) in
        change (digit_val c) with k
    end;
    cbv iota; cbn [Pos.of_uint];
    try exact IHd;
    match goal with
    | |- parse_digits ?z _ = _ =>
        let k := eval vm_compute in z in change z with k
    end;
    rewrite parse_digits_pos; reflexivity.
Qed.

Lemma nilzero_uint (d : Decimal.uint) :
  d <> Decimal.Nil -> NilZero.string_of_uint d = NilEmpty.string_of_uint d.
Proof.
  intro Hd. destruct d; [congruence | reflexivity ..].
Qed.

Lemma uint_chars_int_space (d : Decimal.uint) :
  Forall (fun a => int_isspace a = false)
         (list_ascii_of_string (NilEmpty.string_of_uint d)).
Proof.
  eapply Forall_impl; [| apply uint_chars]. intros a H. apply H.
Qed.

Lemma py_int_uint (d : Decimal.uint) :
  d <> Decimal.Nil ->
  py_int (NilEmpty.string_of_uint d) = Ok (Z.of_N (Pos.of_uint d)).
Proof.
  intro Hd. unfold py_int.
  rewrite strip_with_clean by apply uint_chars_int_space.
  destruct d; [congruence | ..]; simpl list_ascii_of_string; cbv zeta;
    unfold parse_unsigned;
    repeat match goal with
           | |- context [Ascii.eqb ?a ?b] =>
               let k := eval vm_compute in (Ascii.eqb a b) in
               change (Ascii.eqb a b) with k
           | |- context [digit_val ?c] =>
               let k := eval vm_compute in (digit_val c) in
               change (digit_val c) with k
           end;
    cbv iota;
    first [rewrite parse_digits_zero | rewrite parse_digits_pos];
    reflexivity.
Qed.

Lemma py_int_minus_uint (d : Decimal.uint) :
  d <> Decimal.Nil ->
  py_int (String "-" (NilEmpty.string_of_uint d))
  = Ok (- Z.of_N (Pos.of_uint d)).
Proof.
  intro Hd. unfold py_int.
  rewrite strip_with_clean
    by (simpl; constructor; [reflexivity | apply uint_chars_int_space]).
  simpl list_ascii_of_string. cbv zeta.
  replace (Ascii.eqb "-" "-") with true by reflexivity. cbv iota.
  destruct d; [congruence | ..]; simpl list_ascii_of_string;
    unfold parse_unsigned;
    repeat match goal with
           | |- context [digit_val ?c] =>
               let k := eval vm_compute in (digit_val c) in
               change (digit_val c) with k
           end;
    cbv iota;
    first [rewrite parse_digits_zero | rewrite parse_digits_pos];
    reflexivity.
Qed.

Lemma py_int_numeral (v : Z) :
  py_int (NilZero.string_of_int (Z.to_int v)) = Ok v.
Proof.
  destruct v as [| p | p]; [reflexivity | |];
    cbn [Z.to_int NilZero.string_of_int];
    rewrite nilzero_uint by apply Unsigned.to_uint_nonnil.
  - rewrite py_int_uint by apply Unsigned.to_uint_nonnil.
    rewrite Unsigned.of_to. reflexivity.
  - rewrite py_int_minus_uint by apply Unsigned.to_uint_nonnil.
    rewrite Unsigned.of_to. reflexivity.
Qed.

Lemma prompt_line_part (typed : string) :
  ~ In ":"%char (list_ascii_of_string typed) ->
  py_index (py_split ":" (prompt_line typed)) 1 = Ok (String " " typed).
Proof.
  intro Hno. unfold py_split, prompt_line.
  cbn [String.append list_ascii_of_string split_chars Ascii.eqb Bool.eqb].
  rewrite (split_chars_no_sep ":" _ _ Hno).
  cbn [map rev app string_of_list_ascii py_index Z.ltb Z.compare Z.to_nat
         Pos.to_nat Pos.iter_op Nat.add nth_error].
  rewrite string_of_list_ascii_of_string. reflexivity.
Qed.

Lemma dropwhile_all {A : Type} (f : A -> bool) (ws l : list A) :
  Forall (fun a => f a = true) ws -> dropwhile f (ws ++ l) = dropwhile f l.
Proof.
  induction 1 as [| a ws Ha _ IH]; [reflexivity |].
  simpl. rewrite Ha. exact IH.
Qed.

Lemma strip_with_padded (f : ascii -> bool) (ws1 l ws2 : list ascii) :
  Forall (fun a => f a = true) ws1 ->
  Forall (fun a => f a = true) ws2 ->
  Forall (fun a => f a = false) l ->
  strip_with f (ws1 ++ l ++ ws2) = l.
Proof.
  intros H1 H2 Hl. unfold strip_with. rewrite (dropwhile_all f ws1 _ H1).
  destruct l as [| a l'].
  - simpl app. rewrite <- (app_nil_r ws2) at 1.
    rewrite (dropwhile_all f ws2 [] H2). reflexivity.
  - replace (dropwhile f ((a :: l') ++ ws2)) with ((a :: l') ++ ws2)
      by (simpl; rewrite (Forall_inv Hl); reflexivity).
    rewrite rev_app_distr.
    rewrite (dropwhile_all f (rev ws2) _ (Forall_rev H2)).
    rewrite (dropwhile_clean f (rev (a :: l')) (Forall_rev Hl)).
    apply rev_involutive.
Qed.

Lemma list_ascii_of_string_app (s t : string) :
  list_ascii_of_string (s ++ t)
  = list_ascii_of_string s ++ list_ascii_of_string t.
Proof.
  induction s as [| c s IH]; [reflexivity |]. simpl. rewrite IH. reflexivity.
Qed.

Lemma space_not_colon (ws : list ascii) :
  Forall (fun a => py_isspace a = true) ws -> ~ In ":"%char ws.
Proof.
  intros H Hin. rewrite Forall_forall in H. specialize (H _ Hin).
  discriminate H.
Qed.

(** X24: entering the decimal numeral of an integer [v] after the prompt,
    with any whitespace before and after it, selects pass [v] when
    [0 <= v <= N-1] and leaves the view parameters as they are otherwise;
    the status bar returns in both cases. *)
Theorem index_entry_numeral (l : list Step) (rows cols : Z) (v : Z)
  (vp : view_params) (before after : string)
  (Hbefore : Forall (fun a => py_isspace a = true)
                    (list_ascii_of_string before))
  (Hafter : Forall (fun a => py_isspace a = true)
                   (list_ascii_of_string after)) :
  exists w : window,
    _get_statusbar_win l rows cols "index"
      (prompt_line
         (before ++ NilZero.string_of_int (Z.to_int v) ++ after)%string) vp
    = Ok (w, if (0 <=? v) && (v <=? py_len l - 1)
             then set_pass_id vp v else vp).
Proof.
  set (numeral := NilZero.string_of_int (Z.to_int v)).
  set (typed := (before ++ numeral ++ after)%string).
  pose proof (numeral_chars v) as Hchars. fold numeral in Hchars.
  assert (Htyped : list_ascii_of_string typed
                   = list_ascii_of_string before
                     ++ list_ascii_of_string numeral
                     ++ list_ascii_of_string after)
    by (unfold typed; rewrite !list_ascii_of_string_app; reflexivity).
  assert (Hno : ~ In ":"%char (list_ascii_of_string typed)).
  { rewrite Htyped. intro Hin.
    apply in_app_or in Hin. destruct Hin as [Hin | Hin];
      [exact (space_not_colon _ Hbefore Hin) |].
    apply in_app_or in Hin. destruct Hin as [Hin | Hin];
      [| exact (space_not_colon _ Hafter Hin)].
    rewrite Forall_forall in Hchars.
    destruct (Hchars _ Hin) as (_ & _ & Hc). congruence. }
  pose proof (prompt_line_part typed Hno) as Hpart.
  assert (Hstrip : py_strip (String " " typed) = numeral).
  { unfold py_strip. cbn [list_ascii_of_string]. rewrite Htyped.
    change (" "%char :: list_ascii_of_string before
            ++ list_ascii_of_string numeral ++ list_ascii_of_string after)
      with ((" "%char :: list_ascii_of_string before)
            ++ list_ascii_of_string numeral ++ list_ascii_of_string after).
    rewrite strip_with_padded.
    - apply string_of_list_ascii_of_string.
    - constructor; [reflexivity | exact Hbefore].
    - exact Hafter.
    - eapply Forall_impl; [| exact Hchars]. intros a H. apply H. }
  assert (Hint : py_int (py_strip (String " " typed)) = Ok v)
    by (rewrite Hstrip; apply py_int_numeral).
  destruct ((0 <=? v) && (v <=? py_len l - 1)) eqn:Erange.
  - apply andb_true_iff in Erange. destruct Erange as [Hlo Hhi].
    apply Z.leb_le in Hlo. apply Z.leb_le in Hhi.
    destruct (statusbar_index_value l rows cols _ _ vp (set_pass_id vp v) _ _
                eq_refl Hpart
                (index_entry_in_range l _ v vp _ eq_refl Hint Hlo Hhi))
      as (w & Hw & _).
    exists w. exact Hw.
  - assert (Hout : v < 0 \/ py_len l <= v).
    { apply andb_false_iff in Erange.
      destruct Erange as [H | H]; apply Z.leb_gt in H; lia. }
    destruct (statusbar_index_value l rows cols _ _ vp vp _ _
                eq_refl Hpart
                (index_entry_out_of_bounds l _ v vp _ eq_refl Hint Hout))
      as (w & Hw & _).
    exists w. exact Hw.
Qed.

Lemma index_entry_numeral_witness :
  exists w : window,
    _get_statusbar_win sample_steps 24 80 "index"
      (prompt_line (" " ++ NilZero.string_of_int (Z.to_int 3) ++ "  ")%string)
      index_params
    = Ok (w, if (0 <=? 3) && (3 <=? py_len sample_steps - 1)
             then set_pass_id index_params 3 else index_params).
Proof.
  apply (index_entry_numeral sample_steps 24 80 3 index_params " " "  ").
  - repeat constructor.
  - repeat constructor.
Defined.
